(** * Track-fitting verification service (app.py): model and properties

    A shallow embedding of the service's own logic: the component
    vocabulary matcher [parse_component], class-label resolution and the
    best-detection loop of [run_pt_inference], the verdict record built by
    the two request handlers, the persistence adapter
    [save_result_to_firestore], and the handlers [verify_web] and
    [api_verify] themselves.

    Conventions.
    - Python [float] is IEEE binary64: the kernel's primitive [float].
    - Python [int] is [Z].
    - Python [str] is [string]; class labels and the six component names
      are ASCII, and [lower] folds the letters A-Z only.  A string stands
      for the UTF-8 bytes of the text where percent-encoding reads it.
    - A Python [dict] with string keys is a [gmap string jvalue]; a dict
      object that is shared and mutated lives in a heap of such maps.
    - Handlers run in a state-and-exception monad over a [world]: the
      heap, the Firestore handle [db_fs], and a log of the collaborator
      calls made so far. *)

From Stdlib Require Import ZArith List String Ascii Floats Lia Bool DecimalString.
From stdpp Require Import gmap strings.

Local Open Scope string_scope.
Local Open Scope list_scope.
Local Open Scope Z_scope.
#[local] Set Warnings "-inexact-float,-clear-no-such-hyp".

(** ** Strings: [str.lower] and the [in] operator *)

(** [c.lower()] on one character: the letters A-Z move to a-z. *)
Definition lower_ascii (c : ascii) : ascii :=
  let n := N_of_ascii c in
  if ((65 <=? n) && (n <=? 90))%N then ascii_of_N (n + 32) else c.

(** [s.lower()]. *)
Fixpoint lower (s : string) : string :=
  match s with
  | EmptyString => EmptyString
  | String c s' => String (lower_ascii c) (lower s')
  end.

(** [s.startswith(p)]. *)
Fixpoint starts_with (p s : string) : bool :=
  match p, s with
  | EmptyString, _ => true
  | String _ _, EmptyString => false
  | String a p', String b s' => if Ascii.eqb a b then starts_with p' s' else false
  end.

(** [sub in s]: [sub] occurs in [s] at some position. *)
Fixpoint str_in (sub s : string) : bool :=
  starts_with sub s ||
  match s with
  | EmptyString => false
  | String _ s' => str_in sub s'
  end.

(** The meaning of "label contains the component name, case-insensitively":
    the lower-cased label splits around an occurrence of the name. *)
Definition occurs_in (sub s : string) : Prop :=
  exists pre post : string, lower s = (pre ++ sub ++ post)%string.

(** ** Component vocabulary matcher (app.py, lines 114-119) *)

(** The candidate list of the [for] loop, in source order. *)
Definition COMPONENTS : list string :=
  ["erc"; "liner"; "sleeper"; "clip"; "pad"; "bolt"].

(** The loop [for comp in comps: if comp in name: return comp],
    falling through to [return None]. *)
Fixpoint first_component (comps : list string) (name : string) : option string :=
  match comps with
  | [] => None
  | comp :: rest => if str_in comp name then Some comp else first_component rest name
  end.

(** [parse_component(class_name)]; the argument may be [None]
    ([class_name or ""]). *)
Definition parse_component (class_name : option string) : option string :=
  let name := lower (match class_name with
                     | Some s => s          (* "" is falsy: "" or "" = "" *)
                     | None => ""
                     end) in
  first_component COMPONENTS name.

(** ** Exceptions *)

(** The exceptions the modelled code can meet. *)
Inductive exn : Type :=
| IndexError                          (* list index out of range *)
| KeyError (key : string)             (* missing dict key *)
| TypeError (msg : string)
| CollaboratorError (msg : string)    (* raised inside cv2, the model or the store client *)
| Unsupported (what : string).        (* a Python behaviour this model leaves out *)

Inductive result (A : Type) : Type :=
| Ok (a : A)
| Raise (e : exn).
Arguments Ok {A} a.
Arguments Raise {A} e.

(** ** Static class table (app.py, lines 33-59) *)

Definition CLASS_NAMES : list string :=
  [ "clip_ok"; "liner_ok"; "pad_ok"; "sleeper_ok"; "bolt_ok"; "erc_ok";
    "clip_faulty"; "liner_faulty"; "pad_faulty"; "sleeper_faulty";
    "bolt_faulty"; "erc_faulty";
    "clip_rust"; "liner_rust"; "pad_rust"; "sleeper_rust"; "bolt_rust";
    "erc_rust";
    "clip_missing"; "liner_missing"; "pad_missing"; "sleeper_missing";
    "bolt_missing"; "erc_missing";
    "qr_code" ].

(** [len(l)] as a Python int. *)
Definition py_len {A : Type} (l : list A) : Z := Z.of_nat (length l).

(** [l[i]] for a Python list and int: a negative index counts from the
    end, and an index outside [-len, len) raises IndexError. *)
Definition py_index {A : Type} (l : list A) (i : Z) : result A :=
  let j := if i <? 0 then i + py_len l else i in
  if (j <? 0) || (py_len l <=? j) then Raise IndexError
  else match l !! Z.to_nat j with
       | Some x => Ok x
       | None => Raise IndexError
       end.

(** [str(n)] for a Python int. *)
Definition py_str (n : Z) : string := NilZero.string_of_int (Z.to_int n).

(** ** Detections *)

(** One box of [r.boxes], read as the loop reads it:
    [conf = float(b.conf)] and [cls_id = int(b.cls)]. *)
Record box : Type := Box { conf : float; cls_id : Z }.

(** One element of the list [model.predict] returns.  [names] is [None]
    when the result has no attribute [names] or it is not a dict;
    [boxes] is [None] when [r.boxes is None]. *)
Record yolo_result : Type := YoloResult {
  names : option (gmap Z string);
  boxes : option (list box)
}.

(** The dict [best] of the loop: keys "component", "confidence",
    "class_name". *)
Record detection : Type := Detection {
  component : string;
  confidence : float;
  class_name : string
}.

(** ** Class-label resolution (app.py, lines 143-148) *)

(** The test [hasattr(r, "names") and isinstance(r.names, dict) and
    cls_id in r.names], with the entry it finds. *)
Definition label_map_entry (r_names : option (gmap Z string)) (cls_id : Z)
  : option string :=
  match r_names with
  | Some d => d !! cls_id
  | None => None
  end.

Definition resolve_class_name (r_names : option (gmap Z string)) (cls_id : Z)
  : result string :=
  match label_map_entry r_names cls_id with
  | Some label => Ok label                               (* r.names[cls_id] *)
  | None =>
      if cls_id <? py_len CLASS_NAMES
      then py_index CLASS_NAMES cls_id                   (* CLASS_NAMES[cls_id] *)
      else Ok (py_str cls_id)                            (* str(cls_id) *)
  end.

(** ** Best-detection loop (app.py, lines 136-162) *)

(** The loop's variables [best] and [best_conf]. *)
Definition loop_state : Type := (option detection * float)%type.

(** One iteration of [for b in r.boxes]. *)
Definition select_step (r_names : option (gmap Z string))
    (st : loop_state) (b : box) : result loop_state :=
  match resolve_class_name r_names (cls_id b) with
  | Raise e => Raise e
  | Ok label =>
      match parse_component (Some label) with
      | None => Ok st                                    (* continue *)
      | Some comp =>
          if (snd st <? conf b)%float                    (* conf > best_conf *)
          then Ok (Some (Detection comp (conf b) label), conf b)
          else Ok st
      end
  end.

Fixpoint select_loop (r_names : option (gmap Z string))
    (st : loop_state) (bs : list box) : result loop_state :=
  match bs with
  | [] => Ok st
  | b :: bs' =>
      match select_step r_names st b with
      | Raise e => Raise e
      | Ok st' => select_loop r_names st' bs'
      end
  end.

(** Lines 136-162: [best = None; best_conf = -1.0; for ...; return best]. *)
Definition select_best (r_names : option (gmap Z string)) (bs : list box)
  : result (option detection) :=
  match select_loop r_names (None, (-1)%float) bs with
  | Raise e => Raise e
  | Ok st => Ok (fst st)
  end.

(** Lines 132-162, after [r = results[0]]: the early return on absent or
    empty boxes, then the loop. *)
Definition select_from_result (r : yolo_result) : result (option detection) :=
  match boxes r with
  | None => Ok None
  | Some bs =>
      if py_len bs =? 0 then Ok None
      else select_best (names r) bs
  end.

(** What the loop sees of one box: its resolved label and the component
    the matcher finds in it, if both exist. *)
Definition component_of (r_names : option (gmap Z string)) (b : box)
  : option (string * string) :=
  match resolve_class_name r_names (cls_id b) with
  | Raise _ => None
  | Ok label =>
      match parse_component (Some label) with
      | Some comp => Some (comp, label)
      | None => None
      end
  end.

(** The data model's detections: a class label exists (label resolution
    does not raise) and the confidence lies in [0, 1]. *)
Definition valid_box (r_names : option (gmap Z string)) (b : box) : bool :=
  match resolve_class_name r_names (cls_id b) with
  | Ok _ => (0 <=? conf b)%float && (conf b <=? 1)%float
  | Raise _ => false
  end.

(** What the loop's variables say about the boxes already visited:
    either nothing matched and [best_conf] is still the floor, or [best]
    was built from a visited box that beats every matching box before it
    and is not beaten by any matching box after it. *)
Definition loop_inv (r_names : option (gmap Z string)) (visited : list box)
    (st : loop_state) : Prop :=
  match fst st with
  | None =>
      snd st = (-1)%float /\
      forall b, b ∈ visited -> component_of r_names b = None
  | Some m =>
      exists before b after,
        visited = before ++ b :: after /\
        component_of r_names b = Some (component m, class_name m) /\
        confidence m = conf b /\
        snd st = conf b /\
        (forall b', b' ∈ before -> component_of r_names b' <> None ->
                    (conf b' <? conf b)%float = true) /\
        (forall b', b' ∈ after -> component_of r_names b' <> None ->
                    (conf b <? conf b')%float = false)
  end.

(** The boxes the loop would visit: none when [r.boxes is None]. *)
Definition boxes_of (r : yolo_result) : list box := default [] (boxes r).

(** The detections of the specification's scenario, by class id in the
    static table: bolt_rust (16) at 0.81, qr_code (24) at 0.95 and
    clip_ok (0) at 0.60; the result carries no label map. *)
Definition scenario_result : yolo_result :=
  YoloResult None (Some [Box 0.81 16; Box 0.95 24; Box 0.60 0]).

(** A float that is not NaN. *)
Definition not_nan (x : float) : Prop := Prim2SF x <> S754_nan.

(** ** JSON values, dict objects and the world *)

(** Values held by the dicts of this program.  [JServerTimestamp] is the
    sentinel [firestore.SERVER_TIMESTAMP]. *)
Inductive jvalue : Type :=
| JNull
| JBool (b : bool)
| JNum (x : float)
| JStr (s : string)
| JServerTimestamp.

(** A Python dict with string keys, by value. *)
Abbreviation pydict := (gmap string jvalue).

(** A decoded image: rows of three-channel pixels. *)
Definition image : Type := list (list (Z * Z * Z)).

(** The Firestore client, as far as this program uses it: the documents
    written so far (collection, document id, data), the number of
    document references handed out, and whether the backend currently
    refuses writes (the message of the exception [set] then raises). *)
Record firestore : Type := Firestore {
  documents : list (string * string * pydict);
  minted : nat;
  refusing : option string
}.

(** Entries into the components behind a handler's request checks. *)
Inductive event : Type :=
| EvInference      (* run_pt_inference was called *)
| EvPersistence.   (* save_result_to_firestore was called *)

(** Process state seen by a request: the heap of dict objects (an
    address is an index), the global [db_fs], and the events so far. *)
Record world : Type := World {
  heap : list pydict;
  db_fs : option firestore;
  trace : list event
}.

(** Configuration read from the environment at start-up (lines 18-31). *)
Record config : Type := Config {
  PT_MODEL_PATH : string;
  CONF_THRESHOLD : float;
  FIRESTORE_COLLECTION : string
}.

(** The external collaborators.  [cv2.imdecode] returns [None] on bytes
    it cannot decode and raises on an empty buffer; [model.predict] may
    raise. *)
Record collaborators : Type := Collaborators {
  imdecode : list Byte.byte -> result (option image);
  predict : image -> float -> result (list yolo_result)
}.

(** ** The state-and-exception monad of the handlers *)

(** A computation reads and updates the world and either returns or
    raises; the updates made before an exception stay. *)
Definition M (A : Type) : Type := world -> result A * world.

Definition ret {A : Type} (a : A) : M A := fun w => (Ok a, w).

Definition raise {A : Type} (e : exn) : M A := fun w => (Raise e, w).

Definition bind {A B : Type} (c : M A) (k : A -> M B) : M B :=
  fun w => match c w with
           | (Ok a, w') => k a w'
           | (Raise e, w') => (Raise e, w')
           end.

Notation "'let*' x ':=' c 'in' k" := (bind c (fun x => k))
  (at level 10, x name, c at level 100, k at level 200).
Notation "c ';;' k" := (bind c (fun _ => k))
  (at level 100, k at level 200, right associativity).

Definition lift {A : Type} (r : result A) : M A := fun w => (r, w).

Definition log (ev : event) : M unit :=
  fun w => (Ok tt, World (heap w) (db_fs w) (trace w ++ [ev])).

(** *** Dict objects on the heap *)

(** A dict display [{...}] or [dict(...)]: a new object. *)
Definition new_dict (d : pydict) : M nat :=
  fun w => (Ok (length (heap w)), World (heap w ++ [d]) (db_fs w) (trace w)).

(** The current contents of the object at [r]. *)
Definition read_dict (r : nat) : M pydict :=
  fun w => match heap w !! r with
           | Some d => (Ok d, w)
           | None => (Raise (Unsupported "dangling reference"), w)
           end.

(** [dict(x)]: a new object with the items of [x]. *)
Definition dict_copy (r : nat) : M nat :=
  let* d := read_dict r in new_dict d.

(** [x[k] = v]. *)
Definition setitem (r : nat) (k : string) (v : jvalue) : M unit :=
  let* d := read_dict r in
  fun w => (Ok tt, World (<[r := <[k := v]> d]> (heap w)) (db_fs w) (trace w)).

(** [x[k]]. *)
Definition getitem (r : nat) (k : string) : M jvalue :=
  let* d := read_dict r in
  match d !! k with
  | Some v => ret v
  | None => raise (KeyError k)
  end.

(** *** Values *)

(** Truth value of an object in a boolean context. *)
Definition py_truthy (v : jvalue) : bool :=
  match v with
  | JNull => false
  | JBool b => b
  | JNum x => negb (x =? 0)%float
  | JStr s => negb (s =? "")%string
  | JServerTimestamp => true
  end.

(** [v or w]. *)
Definition py_or (v w : jvalue) : jvalue := if py_truthy v then v else w.

(** [s or None] for a string [s]. *)
Definition str_or_none (s : string) : jvalue :=
  if (s =? "")%string then JNull else JStr s.

(** An optional string as a value: [None] or the string. *)
Definition of_option_str (o : option string) : jvalue :=
  match o with
  | Some s => JStr s
  | None => JNull
  end.

(** [float(v)] on the values a confidence field holds. *)
Definition py_float (v : jvalue) : M float :=
  match v with
  | JNum x => ret x
  | JBool b => ret (if b then 1 else 0)%float
  | JNull | JServerTimestamp => raise (TypeError "float() argument")
  | JStr _ => raise (Unsupported "float() of a string")
  end.

(** The text [urlencode] takes from a value: a string as it is. *)
Definition py_text (v : jvalue) : M string :=
  match v with
  | JStr s => ret s
  | _ => raise (Unsupported "str() of a non-string")
  end.

(** ** Formatting and URL encoding *)

(** The decimal digits of a natural number, at least one. *)
Definition digits_of (n : N) : string := NilZero.string_of_uint (N.to_uint n).

(** [n] in decimal, padded on the left with zeros to six digits. *)
Definition six_digits (n : N) : string :=
  let s := digits_of n in
  (String.concat "" (repeat "0" (6 - String.length s)) ++ s)%string.

(** [m * 2^e * 10^6] rounded to the nearest integer, ties to even. *)
Definition round_micro (m : positive) (e : Z) : N :=
  let num := (Npos m * 1000000)%N in
  if (0 <=? e)%Z then (num * 2 ^ Z.to_N e)%N
  else
    let den := (2 ^ Z.to_N (- e))%N in
    let q := (num / den)%N in
    let rm := (num mod den)%N in
    match (2 * rm ?= den)%N with
    | Lt => q
    | Gt => (q + 1)%N
    | Eq => if N.even q then q else (q + 1)%N
    end.

(** [f'{x:.6f}']: fixed-point notation with six decimals, correctly
    rounded from the exact binary value. *)
Definition format_6f (x : float) : string :=
  match Prim2SF x with
  | S754_nan => "nan"
  | S754_infinity s => if s then "-inf" else "inf"
  | S754_zero s => ((if s then "-" else "") ++ "0.000000")%string
  | S754_finite s m e =>
      let n := round_micro m e in
      ((if s then "-" else "") ++ digits_of (n / 1000000) ++ "." ++
       six_digits (n mod 1000000))%string
  end.

(** The characters [quote_plus] leaves as they are: ASCII letters,
    digits and [_.-~]. *)
Definition url_safe (c : ascii) : bool :=
  let n := N_of_ascii c in
  ((48 <=? n) && (n <=? 57) || (65 <=? n) && (n <=? 90) ||
   (97 <=? n) && (n <=? 122) ||
   (n =? 95) || (n =? 46) || (n =? 45) || (n =? 126))%N.

Definition hex_digit (n : N) : ascii :=
  ascii_of_N (if (n <? 10)%N then 48 + n else 55 + n).

(** [quote_plus(s)] over the UTF-8 bytes of [s]. *)
Fixpoint quote_plus (s : string) : string :=
  match s with
  | EmptyString => EmptyString
  | String c s' =>
      let n := N_of_ascii c in
      if url_safe c then String c (quote_plus s')
      else if (n =? 32)%N then String "+" (quote_plus s')
      else String "%" (String (hex_digit (n / 16))
                         (String (hex_digit (n mod 16)) (quote_plus s')))
  end.

(** [urlencode(d)] for a dict display of string values, in display order. *)
Definition urlencode (q : list (string * string)) : string :=
  String.concat "&"
    (map (fun kv => (quote_plus (fst kv) ++ "=" ++ quote_plus (snd kv))%string) q).

(** [os.path.basename(p)]: what follows the last slash. *)
Fixpoint basename_from (cur p : string) : string :=
  match p with
  | EmptyString => cur
  | String c p' =>
      if Ascii.eqb c "/" then basename_from "" p'
      else basename_from (cur ++ String c "")%string p'
  end.

Definition basename (p : string) : string := basename_from "" p.

(** ** Firestore operations *)

(** The id of the [n]-th document reference the client hands out. *)
Definition auto_id (n : nat) : string := ("doc" ++ digits_of (N.of_nat n))%string.

Definition get_db : M (option firestore) := fun w => (Ok (db_fs w), w).

(** [db_fs.collection(c).document()]: a fresh reference, identified by
    its id; no request is sent. *)
Definition new_document : M string :=
  fun w => match db_fs w with
           | Some fs =>
               (Ok (auto_id (minted fs)),
                World (heap w)
                      (Some (Firestore (documents fs) (S (minted fs)) (refusing fs)))
                      (trace w))
           | None => (Raise (Unsupported "attribute access on None"), w)
           end.

(** [ref.set(data)]: the write request.  It raises when the backend
    refuses, and then nothing is stored. *)
Definition document_set (collection id : string) (data : pydict) : M unit :=
  fun w => match db_fs w with
           | Some fs =>
               match refusing fs with
               | Some msg => (Raise (CollaboratorError msg), w)
               | None =>
                   (Ok tt,
                    World (heap w)
                          (Some (Firestore (documents fs ++ [(collection, id, data)])
                                           (minted fs) None))
                          (trace w))
               end
           | None => (Raise (Unsupported "attribute access on None"), w)
           end.

(** ** Persistence adapter (app.py, lines 91-108) *)

Definition save_result_to_firestore (cfg : config) (result_json : nat)
    (material_id source : string) : M (option string) :=
  log EvPersistence ;;
  let* db := get_db in
  match db with
  | None => ret None                                   (* if db_fs is None *)
  | Some _ =>
      let* doc := dict_copy result_json in             (* doc = dict(result_json) *)
      setitem doc "materialId" (str_or_none material_id) ;;
      setitem doc "source" (str_or_none source) ;;
      setitem doc "threshold" (JNum (CONF_THRESHOLD cfg)) ;;
      setitem doc "model" (JStr (basename (PT_MODEL_PATH cfg))) ;;
      setitem doc "createdAt" JServerTimestamp ;;
      let* ref_id := new_document in
      setitem doc "id" (JStr ref_id) ;;
      let* data := read_dict doc in
      document_set (FIRESTORE_COLLECTION cfg) ref_id data ;;
      ret (Some ref_id)
  end.

(** ** Inference (app.py, lines 121-162) *)

(** [cv2.cvtColor(image, cv2.COLOR_BGR2RGB)]. *)
Definition cvtColor_BGR2RGB (img : image) : image :=
  map (map (fun px => match px with (b, g, r) => (r, g, b) end)) img.

Definition run_pt_inference (cfg : config) (env : collaborators)
    (image_bgr : image) : M (option detection) :=
  log EvInference ;;
  let image_rgb := cvtColor_BGR2RGB image_bgr in
  let* results := lift (predict env image_rgb (CONF_THRESHOLD cfg)) in
  let* r := lift (py_index results 0) in
  lift (select_from_result r).

(** ** Requests and responses *)

(** An uploaded file: a [FileStorage], false in a boolean context when
    its filename is empty. *)
Record upload : Type := Upload { filename : string; content : list Byte.byte }.

Record request : Type := Request {
  method : string;
  files_image : option upload;          (* request.files.get("image") *)
  form_callback : option string;        (* request.form.get("callback") *)
  form_materialId : option string       (* request.form.get("materialId") *)
}.

Inductive response : Type :=
| Text (body : string) (status : Z)       (* return body, status *)
| Json (body : pydict) (status : Z)       (* jsonify(body) *)
| Redirect (location : string) (status : Z).

(** [not file] for the value of [request.files.get("image")]. *)
Definition no_file (file : option upload) : bool :=
  match file with
  | None => true
  | Some f => (filename f =? "")%string
  end.

Definition file_bytes (file : option upload) : list Byte.byte :=
  match file with
  | Some f => content f
  | None => []
  end.

(** ** Verdict records *)

(** Lines 236-249 of [verify_web]. *)
Definition verify_web_result (det : option detection) : M nat :=
  match det with
  | None =>
      new_dict (list_to_map [("ok", JBool true);
                             ("status", JStr "not_detected");
                             ("component", JNull);
                             ("confidence", JNum 0)])
  | Some d =>
      new_dict (list_to_map [("ok", JBool true);
                             ("status", JStr "verified");
                             ("component", JStr (component d));
                             ("confidence", JNum (confidence d))])
  end.

(** Lines 289-302 of [api_verify]. *)
Definition api_verify_result (det : option detection) : M nat :=
  match det with
  | None =>
      new_dict (list_to_map [("ok", JBool true);
                             ("status", JStr "not_detected");
                             ("component", JNull);
                             ("confidence", JNum 0)])
  | Some d =>
      new_dict (list_to_map [("ok", JBool true);
                             ("status", JStr "verified");
                             ("component", JStr (component d));
                             ("confidence", JNum (confidence d))])
  end.

(** ** Handlers *)

(** POST /api/verify_web (lines 218-267). *)
Definition verify_web (cfg : config) (env : collaborators) (req : request)
  : M response :=
  let file := files_image req in
  let callback := default "" (form_callback req) in
  let material_id := default "" (form_materialId req) in
  if no_file file then ret (Text "No image" 400)
  else
    match imdecode env (file_bytes file) with
    | Raise e => raise e
    | Ok None => ret (Text "Failed to decode image" 400)
    | Ok (Some img_bgr) =>
        let* det := run_pt_inference cfg env img_bgr in
        let* result_json := verify_web_result det in
        let* doc_id := save_result_to_firestore cfg result_json material_id "verify_web" in
        if negb (callback =? "")%string then
          let* status := getitem result_json "status" in
          let* status_text := py_text status in
          let* comp := getitem result_json "component" in
          let* comp_text := py_text (py_or comp (JStr "")) in
          let* c := getitem result_json "confidence" in
          let* x := py_float c in
          let* doc_text := py_text (py_or (of_option_str doc_id) (JStr "")) in
          let q := urlencode [("id", material_id);
                              ("aiStatus", status_text);
                              ("aiComponent", comp_text);
                              ("aiConfidence", format_6f x);
                              ("aiDocId", doc_text)] in
          ret (Redirect (callback ++ "?" ++ q)%string 302)
        else
          setitem result_json "docId" (of_option_str doc_id) ;;
          let* body := read_dict result_json in
          ret (Json body 200)
    end.

(** POST, OPTIONS /api/verify (lines 269-308). *)
Definition api_verify (cfg : config) (env : collaborators) (req : request)
  : M response :=
  if (method req =? "OPTIONS")%string then ret (Text "" 204)
  else
    let file := files_image req in
    if no_file file then
      ret (Json (list_to_map [("ok", JBool false);
                              ("error", JStr "image is required")]) 400)
    else
      let material_id := default "" (form_materialId req) in
      match imdecode env (file_bytes file) with
      | Raise e => raise e
      | Ok None =>
          ret (Json (list_to_map [("ok", JBool false);
                                  ("error", JStr "failed to decode image")]) 400)
      | Ok (Some img_bgr) =>
          let* det := run_pt_inference cfg env img_bgr in
          let* result_json := api_verify_result det in
          let* doc_id := save_result_to_firestore cfg result_json material_id "api_verify" in
          setitem result_json "docId" (of_option_str doc_id) ;;
          let* body := read_dict result_json in
          ret (Json body 200)
      end.

(** ** Sample configuration, collaborators, requests and worlds *)

Definition sample_config : config :=
  Config "/srv/verify/best.pt" 0.35 "ai_verifications".

(** [cv2.imdecode] on an empty buffer. *)
Definition empty_buffer_error : exn :=
  CollaboratorError "cv2.error: (-215:Assertion failed) !buf.empty() in function 'imdecode_'".

(** A decoder for which every non-empty upload is a one-pixel image. *)
Definition decode_any (buf : list Byte.byte) : result (option image) :=
  match buf with
  | [] => Raise empty_buffer_error
  | _ :: _ => Ok (Some [[(0, 0, 0)]])
  end.

(** A decoder that recognises no upload. *)
Definition decode_none (buf : list Byte.byte) : result (option image) :=
  match buf with
  | [] => Raise empty_buffer_error
  | _ :: _ => Ok None
  end.

(** The first bytes of a JPEG file, standing for a photo. *)
Definition photo_bytes : list Byte.byte := [Byte.xff; Byte.xd8; Byte.xff; Byte.xe0].

(** Every non-empty upload decodes to a one-pixel image, and the model
    reports the scenario's three detections. *)
Definition sample_env : collaborators :=
  Collaborators decode_any (fun _ _ => Ok [scenario_result]).

(** A form post with an image and a material id, without callback. *)
Definition sample_request : request :=
  Request "POST" (Some (Upload "photo.jpg" photo_bytes)) None (Some "M-17").

(** The same post with a callback. *)
Definition callback_request : request :=
  Request "POST" (Some (Upload "photo.jpg" photo_bytes))
          (Some "https://example.org/done") (Some "M-17").

(** A post without the [image] field. *)
Definition imageless_request : request :=
  Request "POST" None (Some "https://example.org/done") (Some "M-17").

(** No store configured; a working store; a store that refuses writes. *)
Definition world_no_store : world := World [] None [].
Definition world_store : world := World [] (Some (Firestore [] 0 None)) [].

(** ** Specification-side names *)

(** The VerificationResult the specification's rule assigns to a selector
    output, written from the rule's words; the handlers' own records are
    [verify_web_result] and [api_verify_result]. *)
Definition verdict_of (det : option detection) : pydict :=
  match det with
  | None =>
      <["ok" := JBool true]> (<["status" := JStr "not_detected"]>
        (<["component" := JNull]> (<["confidence" := JNum 0]> ∅)))
  | Some m =>
      <["ok" := JBool true]> (<["status" := JStr "verified"]>
        (<["component" := JStr (component m)]>
          (<["confidence" := JNum (confidence m)]> ∅)))
  end.

(** The fields of a VerificationResult. *)
Definition RESULT_FIELDS : list string := ["ok"; "status"; "component"; "confidence"].

(** The five provenance fields. *)
Definition PROVENANCE_FIELDS : list string :=
  ["materialId"; "source"; "threshold"; "model"; "createdAt"].

(** The contents of [doc] when [ref.set(doc)] runs, for a result record
    [d] and a document id [id]. *)
Definition document_of (cfg : config) (material_id source id : string)
    (d : pydict) : pydict :=
  <["id" := JStr id]>
    (<["createdAt" := JServerTimestamp]>
      (<["model" := JStr (basename (PT_MODEL_PATH cfg))]>
        (<["threshold" := JNum (CONF_THRESHOLD cfg)]>
          (<["source" := str_or_none source]>
            (<["materialId" := str_or_none material_id]> d))))).

(** The query of the redirect, as the interface description lists it. *)
Definition redirect_query (material_id : string) (det : option detection)
    (doc_id : option string) : list (string * string) :=
  [("id", material_id);
   ("aiStatus", match det with Some _ => "verified" | None => "not_detected" end);
   ("aiComponent", match det with Some m => component m | None => "" end);
   ("aiConfidence", format_6f (match det with Some m => confidence m | None => 0%float end));
   ("aiDocId", default "" doc_id)].

(** A selector result whose matching detections all have confidence 0.0:
    qr_code, clip_ok and erc_ok. *)
Definition zero_confidence_result : yolo_result :=
  YoloResult None (Some [Box 0 24; Box 0 0; Box 0 5]).

(** ** Further names for the selector *)

(** Whether the loop goes past its [continue] on a box. *)
Definition has_component (r_names : option (gmap Z string)) (b : box) : bool :=
  match component_of r_names b with
  | Some _ => true
  | None => false
  end.

(** What the loop's variables say about visited boxes of any kind, NaN
    and out-of-range confidences included: while [best] is [None] the
    floor is in place and every visited box either has no component or
    does not exceed the floor; once [best] is set it repeats a visited
    box, [best_conf] is its confidence, and that lies above the floor. *)
Definition loop_sound (r_names : option (gmap Z string)) (visited : list box)
    (st : loop_state) : Prop :=
  match fst st with
  | None =>
      snd st = (-1)%float /\
      forall b, b ∈ visited ->
        component_of r_names b = None \/ ((-1) <? conf b)%float = false
  | Some m =>
      ((-1) <? snd st)%float = true /\
      snd st = confidence m /\
      exists b, b ∈ visited /\
                component_of r_names b = Some (component m, class_name m) /\
                conf b = confidence m
  end.

(** The two axes of the static class table: entry [i] is component
    [i mod 6], an underscore, and condition [i / 6]. *)
Definition TABLE_COMPONENTS : list string :=
  ["clip"; "liner"; "pad"; "sleeper"; "bolt"; "erc"].

Definition TABLE_CONDITIONS : list string := ["ok"; "faulty"; "rust"; "missing"].

(** ** Further sample collaborators *)

(** The model raises on every image. *)
Definition failing_model_env : collaborators :=
  Collaborators decode_any (fun _ _ => Raise (CollaboratorError "model failure")).

(** No upload decodes. *)
Definition undecodable_env : collaborators :=
  Collaborators decode_none (fun _ _ => Ok [scenario_result]).

(** A store that already holds one document. *)
Definition world_with_document : world :=
  World [] (Some (Firestore [("ai_verifications", "doc0", verdict_of None)] 1 None)) [].

(** How one request may change the store: not at all; or a document
    reference was handed out and the write was refused; or a reference
    was handed out and one document was appended under its id, in the
    configured collection.  Earlier documents stay as they are. *)
Definition store_extends (cfg : config) (fs fs' : firestore) : Prop :=
  refusing fs' = refusing fs
  /\ (fs' = fs
      \/ (documents fs' = documents fs /\ minted fs' = S (minted fs)
          /\ refusing fs <> None)
      \/ (exists doc,
            documents fs'
            = documents fs ++ [(FIRESTORE_COLLECTION cfg, auto_id (minted fs), doc)]
            /\ minted fs' = S (minted fs)
            /\ refusing fs = None
            /\ doc !! "id" = Some (JStr (auto_id (minted fs))))).

(** ** Start-up and the informational routes *)

(** What the module body and [init_firestore] ask of the platform:
    [os.path.exists], [YOLO(path)] (the loaded model's [predict]),
    [cv2.imdecode], [credentials.Certificate(path)] (the credential, here
    a name), [firebase_admin.initialize_app(cred)] and
    [firestore.client()].  All but the first may raise. *)
Record platform : Type := Platform {
  path_exists : string -> bool;
  load_model : string -> result (image -> float -> result (list yolo_result));
  cv2_imdecode : list Byte.byte -> result (option image);
  certificate : string -> result string;
  initialize_app : string -> result unit;
  firestore_client : result firestore
}.

(** The lines [init_firestore] prints. *)
Inductive console_line : Type :=
| SkippedKeyNotFound (key_path : string)   (* "Firestore skipped: key not found:" *)
| InitializedOK                            (* "Firestore initialized OK" *)
| InitError (e : exn).                     (* "Firestore init error:" *)

(** The process around the world of the requests: whether
    [firebase_admin._apps] is non-empty, and the console. *)
Record process : Type := Process {
  proc_world : world;
  firebase_apps : bool;
  console : list console_line
}.

Definition console_print (l : console_line) (p : process) : process :=
  Process (proc_world p) (firebase_apps p) (console p ++ [l]).

(** The assignment to the global [db_fs]. *)
Definition set_db_fs (db : option firestore) (p : process) : process :=
  Process (World (heap (proc_world p)) db (trace (proc_world p)))
          (firebase_apps p) (console p).

(** Lines 82-84: the app is initialised unless one exists. *)
Definition ensure_app (plat : platform) (key_path : string) (p : process)
  : result unit * process :=
  if firebase_apps p then (Ok tt, p)
  else
    match certificate plat key_path with
    | Raise e => (Raise e, p)
    | Ok cred =>
        match initialize_app plat cred with
        | Raise e => (Raise e, p)
        | Ok _ => (Ok tt, Process (proc_world p) true (console p))
        end
    end.

(** The body of the [try] (lines 78-87). *)
Definition init_firestore_try (plat : platform) (key_path : string) (p : process)
  : result unit * process :=
  if (key_path =? "")%string || negb (path_exists plat key_path)
  then (Ok tt, console_print (SkippedKeyNotFound key_path) p)          (* return *)
  else
    match ensure_app plat key_path p with
    | (Raise e, p1) => (Raise e, p1)
    | (Ok _, p1) =>
        match firestore_client plat with
        | Raise e => (Raise e, p1)
        | Ok fs => (Ok tt, console_print InitializedOK (set_db_fs (Some fs) p1))
        end
    end.

(** [init_firestore()] (lines 75-89): the [try] with its
    [except Exception]. *)
Definition init_firestore (plat : platform) (key_path : string) (p : process)
  : result unit * process :=
  match init_firestore_try plat key_path p with
  | (Raise e, p1) => (Ok tt, console_print (InitError e) p1)
  | (Ok u, p1) => (Ok u, p1)
  end.

(** How the module body ends. *)
Inductive startup : Type :=
| FileNotFound (msg : string)                    (* raise FileNotFoundError *)
| StartupError (e : exn)                         (* another exception left the body *)
| Serving (env : collaborators) (p : process).   (* the routes are registered *)

(** The module body from line 66 to line 110, for the configuration
    and the FIREBASE_KEY_PATH read at lines 16-31: the model file check,
    [YOLO(...)], [db_fs = None], [init_firestore()]. *)
Definition start (plat : platform) (cfg : config) (key_path : string) : startup :=
  if negb (path_exists plat (PT_MODEL_PATH cfg))
  then FileNotFound ("PT model not found at: " ++ PT_MODEL_PATH cfg)%string
  else
    match load_model plat (PT_MODEL_PATH cfg) with
    | Raise e => StartupError e
    | Ok model =>
        match init_firestore plat key_path (Process (World [] None []) false []) with
        | (Raise e, _) => StartupError e
        | (Ok _, p) => Serving (Collaborators (cv2_imdecode plat) model) p
        end
    end.

(** GET / (lines 166-168). *)
Definition home : response := Redirect "/verify" 302.

(** [bool(db_fs)]: a client object is true, [None] is false. *)
Definition db_truthy (db : option firestore) : bool :=
  match db with
  | Some _ => true
  | None => false
  end.

(** GET /health (lines 170-178). *)
Definition health (cfg : config) : M response :=
  let* db := get_db in
  ret (Json (list_to_map [("ok", JBool true);
                          ("ptModelPath", JStr (PT_MODEL_PATH cfg));
                          ("threshold", JNum (CONF_THRESHOLD cfg));
                          ("firestore", JBool (db_truthy db));
                          ("collection", JStr (FIRESTORE_COLLECTION cfg))]) 200).

(** A platform with the model file and no service-account key. *)
Definition platform_without_key : platform :=
  Platform (fun path => (path =? "/srv/verify/best.pt")%string)
           (fun _ => Ok (fun _ _ => Ok [scenario_result]))
           decode_any
           (fun _ => Raise (CollaboratorError "no such file"))
           (fun _ => Ok tt)
           (Raise (CollaboratorError "no default app")).

(** A platform on which every file exists and Firestore comes up. *)
Definition platform_complete : platform :=
  Platform (fun _ => true)
           (fun _ => Ok (fun _ _ => Ok [scenario_result]))
           decode_any
           (fun path => Ok path)
           (fun _ => Ok tt)
           (Ok (Firestore [] 0 None)).

(** The number of occurrences of a character in a string. *)
Fixpoint count_char (c : ascii) (s : string) : nat :=
  match s with
  | EmptyString => 0%nat
  | String a s' => ((if Ascii.eqb a c then 1 else 0) + count_char c s')%nat
  end.

(** ** Containment up to letter case, stated without [lower] *)

(** Two characters are the same letter up to case: they are equal, or
    one is an ASCII capital (codes 65 to 90) and the other is the small
    letter 32 codes above it. *)
Definition same_letter (a b : ascii) : bool :=
  let na := N_of_ascii a in
  let nb := N_of_ascii b in
  ((na =? nb) ||
   ((65 <=? na) && (na <=? 90) && (nb =? na + 32)) ||
   ((65 <=? nb) && (nb <=? 90) && (na =? nb + 32)))%N.

(** Two strings of the same length whose characters agree up to case. *)
Fixpoint equal_ignoring_case (s1 s2 : string) : bool :=
  match s1, s2 with
  | EmptyString, EmptyString => true
  | String a s1', String b s2' => same_letter a b && equal_ignoring_case s1' s2'
  | _, _ => false
  end.

(** [label] contains [name] case-insensitively: some stretch of the
    label equals the name up to case. *)
Definition contains_ignoring_case (label name : string) : Prop :=
  exists pre mid post : string,
    label = (pre ++ mid ++ post)%string /\ equal_ignoring_case mid name = true.

(** A string of small ASCII letters. *)
Fixpoint small_letters (s : string) : bool :=
  match s with
  | EmptyString => true
  | String a s' => ((97 <=? N_of_ascii a) && (N_of_ascii a <=? 122))%N && small_letters s'
  end.

(** ** Reading a URL *)

(** What a reader of a URL finds in it, written from RFC 3986 and the
    form encoding rather than from the code, to state what a redirect
    carries. *)

(** The text before the first [c], all of it when there is none. *)
Fixpoint before_char (c : ascii) (s : string) : string :=
  match s with
  | EmptyString => EmptyString
  | String a s' => if Ascii.eqb a c then EmptyString else String a (before_char c s')
  end.

(** The text after the first [c], when there is one. *)
Fixpoint after_char (c : ascii) (s : string) : option string :=
  match s with
  | EmptyString => None
  | String a s' => if Ascii.eqb a c then Some s' else after_char c s'
  end.

(** The query of a URL: what follows the first [?], the fragment (from
    the first [#] on) left out. *)
Definition url_query (url : string) : option string :=
  after_char "?" (before_char "#" url).

(** The pieces of [s] between the occurrences of [c]. *)
Fixpoint split_on (c : ascii) (s : string) : list string :=
  match s with
  | EmptyString => [EmptyString]
  | String a s' =>
      if Ascii.eqb a c then EmptyString :: split_on c s'
      else match split_on c s' with
           | x :: l => String a x :: l
           | [] => [String a EmptyString]
           end
  end.

(** The value of a hexadecimal digit, in either case. *)
Definition hex_value (c : ascii) : option N :=
  let n := N_of_ascii c in
  if ((48 <=? n) && (n <=? 57))%N then Some (n - 48)%N
  else if ((65 <=? n) && (n <=? 70))%N then Some (n - 55)%N
  else if ((97 <=? n) && (n <=? 102))%N then Some (n - 87)%N
  else None.

(** Form decoding: [+] is a space, [%] with two hexadecimal digits is
    the byte they denote, everything else stands for itself. *)
Fixpoint unquote_plus (s : string) : string :=
  match s with
  | EmptyString => EmptyString
  | String c rest =>
      if Ascii.eqb c "+" then String " " (unquote_plus rest)
      else if Ascii.eqb c "%" then
        match rest with
        | String h (String l rest') =>
            match hex_value h, hex_value l with
            | Some a, Some b => String (ascii_of_N (16 * a + b)) (unquote_plus rest')
            | _, _ => String c (unquote_plus rest)
            end
        | _ => String c (unquote_plus rest)
        end
      else String c (unquote_plus rest)
  end.

(** One [name=value] piece of a query, a missing [=] giving an empty
    value. *)
Definition parse_pair (s : string) : string * string :=
  (unquote_plus (before_char "=" s), unquote_plus (default "" (after_char "=" s))).

(** The parameters of a query string, in order, blank values kept and
    empty pieces skipped. *)
Definition parse_qsl (qs : string) : list (string * string) :=
  map parse_pair (List.filter (fun s => negb (s =? "")%string) (split_on "&" qs)).

(** The query parameters a URL carries. *)
Definition url_parameters (url : string) : list (string * string) :=
  match url_query url with
  | Some qs => parse_qsl qs
  | None => []
  end.



(** * Properties *)

(** ** Strings *)

Lemma starts_with_spec (p s : string) :
  starts_with p s = true <-> exists post, s = (p ++ post)%string.
Proof.
  revert s; induction p as [|a p IH]; intros s; simpl.
  - split; [intros _; now exists s | easy].
  - destruct s as [|b s].
    + split; [easy | intros [post H]; discriminate H].
    + destruct (Ascii.eqb_spec a b) as [->|Hab].
      * rewrite IH. split; intros [post H]; exists post.
        -- now rewrite H.
        -- now injection H.
      * split; [easy | intros [post H]; injection H; intros; congruence].
Qed.

Lemma str_in_spec (sub s : string) :
  str_in sub s = true <-> exists pre post, s = (pre ++ sub ++ post)%string.
Proof.
  induction s as [|c s IH].
  - cbn [str_in]. rewrite orb_false_r, starts_with_spec. split.
    + intros [post H]. now exists "", post.
    + intros [pre [post H]]. destruct pre as [|? ?]; [now exists post | discriminate H].
  - cbn [str_in]. rewrite orb_true_iff, starts_with_spec, IH. split.
    + intros [[post H] | [pre [post H]]].
      * now exists "", post.
      * exists (String c pre), post. simpl. now rewrite H.
    + intros [pre [post H]]. destruct pre as [|c' pre].
      * left. now exists post.
      * right. exists pre, post. simpl in H. now injection H.
Qed.

Lemma str_in_lower (comp : string) (label : string) :
  str_in comp (lower label) = true <-> occurs_in comp label.
Proof. apply str_in_spec. Qed.

(** ** Component vocabulary matcher *)

Lemma first_component_None (comps : list string) (name : string) :
  first_component comps name = None <->
  forall c, c ∈ comps -> str_in c name = false.
Proof.
  induction comps as [|c0 comps IH]; simpl.
  - split; [intros _ c Hc; inversion Hc | easy].
  - destruct (str_in c0 name) eqn:E0.
    + split; [discriminate | intros H].
      specialize (H c0 (list_elem_of_here _ _)). congruence.
    + rewrite IH. split.
      * intros H c Hc. apply elem_of_cons in Hc as [-> | Hc]; auto.
      * intros H c Hc. apply H. now apply list_elem_of_further.
Qed.

Lemma first_component_Some (comps : list string) (name c : string) :
  first_component comps name = Some c <->
  exists before after,
    comps = (before ++ c :: after)%list /\
    str_in c name = true /\
    forall c', c' ∈ before -> str_in c' name = false.
Proof.
  induction comps as [|c0 comps IH]; simpl.
  - split; [discriminate | intros (b & a & H & _)].
    destruct b; discriminate H.
  - destruct (str_in c0 name) eqn:E0.
    + split.
      * intros [= <-]. exists [], comps. repeat split; auto.
        intros c' Hc'. inversion Hc'.
      * intros (b & a & H & Hc & Hb). destruct b as [|b0 b].
        -- simpl in H. now injection H as -> _.
        -- simpl in H. injection H as -> _.
           specialize (Hb b0 (list_elem_of_here _ _)). congruence.
    + rewrite IH. split.
      * intros (b & a & -> & Hc & Hb). exists (c0 :: b), a. repeat split; auto.
        intros c' Hc'. apply elem_of_cons in Hc' as [-> | Hc']; auto.
      * intros (b & a & H & Hc & Hb). destruct b as [|b0 b].
        -- simpl in H. injection H as -> _. congruence.
        -- simpl in H. injection H as -> ->. exists b, a. repeat split; auto.
           intros c' Hc'. apply Hb. now apply list_elem_of_further.
Qed.

Lemma parse_component_eq (class_name : option string) :
  parse_component class_name =
  first_component COMPONENTS (lower (default "" class_name)).
Proof. now destruct class_name. Qed.

(** The matcher in terms of its own candidate list and of occurrences in
    the lower-cased label. *)
Lemma parse_component_first_match (class_name : option string) :
  (forall c, c ∈ COMPONENTS ->
     occurs_in c (default "" class_name) ->
     (forall c', c' ∈ COMPONENTS -> c' <> c -> ~ occurs_in c' (default "" class_name)) ->
     parse_component class_name = Some c)
  /\ ((forall c, c ∈ COMPONENTS -> ~ occurs_in c (default "" class_name)) ->
      parse_component class_name = None)
  /\ parse_component (Some "qr_code") = None
  /\ parse_component (Some "") = None
  /\ parse_component None = None
  /\ (forall c, parse_component class_name = Some c <->
        exists before after,
          COMPONENTS = (before ++ c :: after)%list /\
          occurs_in c (default "" class_name) /\
          forall c', c' ∈ before -> ~ occurs_in c' (default "" class_name)).
Proof.
  rewrite !parse_component_eq.
  set (name := default "" class_name).
  assert (Hall : forall c, parse_component class_name = Some c <->
        exists before after,
          COMPONENTS = (before ++ c :: after)%list /\
          occurs_in c name /\
          forall c', c' ∈ before -> ~ occurs_in c' name).
  { intros c. rewrite parse_component_eq, first_component_Some. fold name.
    split; intros (b & a & H & Hc & Hb); exists b, a; repeat split; auto.
    - now apply str_in_lower.
    - intros c' Hc' Hocc. apply str_in_lower in Hocc.
      rewrite (Hb c' Hc') in Hocc. discriminate.
    - now apply str_in_lower.
    - intros c' Hc'. specialize (Hb c' Hc').
      destruct (str_in c' (lower name)) eqn:E; auto.
      exfalso. apply Hb. now apply str_in_lower. }
  rewrite parse_component_eq in Hall. fold name in Hall.
  repeat split.
  - intros c Hc Hocc Hothers. apply Hall.
    apply list_elem_of_split in Hc as (b & a & Hsplit).
    exists b, a. repeat split; auto.
    intros c' Hc'. apply Hothers.
    + rewrite Hsplit. apply elem_of_app. now left.
    + intros ->. revert Hsplit Hc'. clear.
      intros Hsplit Hc'.
      assert (Hnd : NoDup COMPONENTS) by (apply (bool_decide_unpack _); vm_compute; exact I).
      rewrite Hsplit in Hnd. apply NoDup_app in Hnd as (_ & Hnd & _).
      apply (Hnd c Hc'). apply list_elem_of_here.
  - intros Hnone. apply first_component_None. intros c Hc.
    destruct (str_in c (lower name)) eqn:E; auto.
    exfalso. apply (Hnone c Hc). now apply str_in_lower.
  - apply Hall.
  - apply Hall.
Qed.

Lemma lower_append (s1 s2 : string) :
  lower (s1 ++ s2)%string = (lower s1 ++ lower s2)%string.
Proof. induction s1 as [|a s1 IH]; simpl; [reflexivity | now rewrite IH]. Qed.

(** *** Case-insensitive containment and the lower-cased label *)

Lemma same_letter_lower (m x : ascii) :
  (97 <= N_of_ascii x <= 122)%N ->
  same_letter m x = true <-> lower_ascii m = x.
Proof.
  intros Hx. unfold same_letter, lower_ascii. cbv zeta.
  pose proof (N_ascii_bounded m) as Hm.
  assert (Hinj : m = x <-> N_of_ascii m = N_of_ascii x).
  { split; [now intros -> | intros E].
    rewrite <- (ascii_N_embedding m), E. apply ascii_N_embedding. }
  assert (Hup : (N_of_ascii m <= 90)%N ->
                ascii_of_N (N_of_ascii m + 32) = x <-> (N_of_ascii x = N_of_ascii m + 32)%N).
  { intros Hle. split.
    - intros <-. rewrite N_ascii_embedding; lia.
    - intros E. rewrite <- E. apply ascii_N_embedding. }
  rewrite !orb_true_iff, !andb_true_iff, !N.leb_le, !N.eqb_eq.
  destruct (N.leb_spec 65 (N_of_ascii m)) as [Hlo|Hlo];
    destruct (N.leb_spec (N_of_ascii m) 90) as [Hhi|Hhi]; simpl.
  - rewrite (Hup Hhi). split; [|intros E; left; right; auto].
    intros [[E | (_ & E)] | (_ & E)]; lia.
  - rewrite Hinj. split; [|intros E; left; left; exact E].
    intros [[E | (Hc & E)] | (Hc & E)]; lia.
  - rewrite Hinj. split; [|intros E; left; left; exact E].
    intros [[E | (Hc & E)] | (Hc & E)]; lia.
  - lia.
Qed.

Lemma equal_ignoring_case_lower (mid name : string) :
  small_letters name = true ->
  equal_ignoring_case mid name = true <-> lower mid = name.
Proof.
  revert name. induction mid as [|m mid IH]; intros [|x name]; simpl.
  - intros _. split; reflexivity.
  - intros _. split; discriminate.
  - intros _. split; discriminate.
  - intros Hsmall. apply andb_true_iff in Hsmall as [Hx Hname].
    apply andb_true_iff in Hx as [Hlo Hhi].
    apply N.leb_le in Hlo, Hhi.
    rewrite andb_true_iff, (same_letter_lower m x) by lia.
    rewrite (IH name Hname). split.
    + now intros [-> ->].
    + now intros [= -> ->].
Qed.

Lemma lower_split (s a b : string) :
  lower s = (a ++ b)%string ->
  exists s1 s2, s = (s1 ++ s2)%string /\ lower s1 = a /\ lower s2 = b.
Proof.
  revert s. induction a as [|x a IH]; intros s H.
  - exists ""%string, s. auto.
  - destruct s as [|c s]; [discriminate H|].
    simpl in H. injection H as Hc Hs.
    destruct (IH s Hs) as (s1 & s2 & -> & H1 & H2).
    exists (String c s1), s2. simpl. now rewrite Hc, H1.
Qed.

Lemma contains_ignoring_case_occurs (label name : string) :
  small_letters name = true ->
  contains_ignoring_case label name <-> occurs_in name label.
Proof.
  intros Hsmall. split.
  - intros (pre & mid & post & -> & Hmid).
    apply equal_ignoring_case_lower in Hmid; [|exact Hsmall].
    exists (lower pre), (lower post). now rewrite !lower_append, Hmid.
  - intros (pre' & post' & H).
    apply lower_split in H as (pre & rest & -> & Hpre & Hrest).
    apply lower_split in Hrest as (mid & post & -> & Hmid & Hpost).
    exists pre, mid, post. split; [reflexivity|].
    now apply equal_ignoring_case_lower.
Qed.

(** C3.  [parse_component] on a label, an absent label reading as the
    empty string, and the six names erc, liner, sleeper, clip, pad, bolt.
    A label that contains exactly one of the six case-insensitively
    yields that name; a label that contains none of them yields no match,
    and so do "qr_code", the empty label and the absent label; and in
    general the result is the earliest of the six, in the order given,
    that the label contains case-insensitively. *)
Theorem parse_component_spec (class_name : option string) :
  let names := ["erc"; "liner"; "sleeper"; "clip"; "pad"; "bolt"] in
  let label := default "" class_name in
  (forall c, c ∈ names ->
     contains_ignoring_case label c ->
     (forall c', c' ∈ names -> c' <> c -> ~ contains_ignoring_case label c') ->
     parse_component class_name = Some c)
  /\ ((forall c, c ∈ names -> ~ contains_ignoring_case label c) ->
      parse_component class_name = None)
  /\ parse_component (Some "qr_code") = None
  /\ parse_component (Some "") = None
  /\ parse_component None = None
  /\ (forall c, parse_component class_name = Some c <->
        exists before after,
          names = (before ++ c :: after)%list /\
          contains_ignoring_case label c /\
          forall c', c' ∈ before -> ~ contains_ignoring_case label c').
Proof.
  cbv zeta.
  change ["erc"; "liner"; "sleeper"; "clip"; "pad"; "bolt"] with COMPONENTS.
  assert (Hsmall : forall c, c ∈ COMPONENTS -> small_letters c = true).
  { intros c Hc. unfold COMPONENTS in Hc.
    repeat (apply elem_of_cons in Hc as [-> | Hc]; [reflexivity|]).
    inversion Hc. }
  assert (Hiff : forall c, c ∈ COMPONENTS ->
            contains_ignoring_case (default "" class_name) c
            <-> occurs_in c (default "" class_name)).
  { intros c Hc. apply contains_ignoring_case_occurs. now apply Hsmall. }
  destruct (parse_component_first_match class_name) as (H1 & H2 & H3 & H4 & H5 & H6).
  split; [|split; [|split; [|split; [|split]]]]; auto.
  - intros c Hc Hocc Hothers. apply H1; auto.
    + now apply Hiff.
    + intros c' Hc' Hne Hocc'. apply (Hothers c' Hc' Hne). now apply Hiff.
  - intros Hnone. apply H2. intros c Hc Hocc. apply (Hnone c Hc). now apply Hiff.
  - intros c. rewrite H6. split.
    + intros (before & after & Hsplit & Hocc & Hbefore).
      exists before, after. split; [exact Hsplit|].
      assert (Hin : forall c', c' ∈ before ++ c :: after -> c' ∈ COMPONENTS)
        by (intros c' Hc'; now rewrite Hsplit).
      split.
      * apply Hiff; [|exact Hocc]. apply Hin, elem_of_app. right. apply list_elem_of_here.
      * intros c' Hc' Hocc'. apply (Hbefore c' Hc'). apply Hiff; [|exact Hocc'].
        apply Hin, elem_of_app. now left.
    + intros (before & after & Hsplit & Hocc & Hbefore).
      exists before, after. split; [exact Hsplit|].
      assert (Hin : forall c', c' ∈ before ++ c :: after -> c' ∈ COMPONENTS)
        by (intros c' Hc'; now rewrite Hsplit).
      split.
      * apply Hiff; [|exact Hocc]. apply Hin, elem_of_app. right. apply list_elem_of_here.
      * intros c' Hc' Hocc'. apply (Hbefore c' Hc'). apply Hiff; [|exact Hocc'].
        apply Hin, elem_of_app. now left.
Qed.

(** Capitals in the label do not matter, and the label is not changed. *)
Example contains_ignoring_case_sample : contains_ignoring_case "Bolt_RUST" "bolt".
Proof. now exists ""%string, "Bolt"%string, "_RUST"%string. Qed.

Example parse_component_clip_ok : parse_component (Some "clip_ok") = Some "clip".
Proof. reflexivity. Qed.

Example parse_component_upper : parse_component (Some "Bolt_RUST") = Some "bolt".
Proof. reflexivity. Qed.

(** A label naming two components: the earlier list entry wins, whatever
    the order inside the label. *)
Example parse_component_ambiguous : parse_component (Some "bolt_on_erc") = Some "erc".
Proof. reflexivity. Qed.

(** ** Order facts on binary64 comparisons

    [<?] and [<=?] on floats are specified through [SFcompare]; away from
    NaN it is a total preorder (the two zeros compare equal). *)

Ltac sf_signs :=
  repeat match goal with
  | s : bool |- _ => destruct s
  end; simpl in *; try congruence.

Ltac sf_compare :=
  repeat match goal with
  | |- context [PosDef.Pos.compare_cont Eq ?a ?b] =>
      change (PosDef.Pos.compare_cont Eq a b) with (Pos.compare a b)
  | H : context [PosDef.Pos.compare_cont Eq ?a ?b] |- _ =>
      change (PosDef.Pos.compare_cont Eq a b) with (Pos.compare a b) in H
  | H : context [Z.compare ?a ?b] |- _ => destruct (Z.compare_spec a b); simpl in H
  | |- context [Z.compare ?a ?b] => destruct (Z.compare_spec a b); simpl
  | H : context [Pos.compare ?a ?b] |- _ => destruct (Pos.compare_spec a b); simpl in H
  | |- context [Pos.compare ?a ?b] => destruct (Pos.compare_spec a b); simpl
  end; subst; try congruence; try lia.

Lemma SFltb_trans (a b c : spec_float) :
  SFltb a b = true -> SFltb b c = true -> SFltb a c = true.
Proof.
  unfold SFltb, SFcompare.
  destruct a as [sa|sa| |sa ma ea], b as [sb|sb| |sb mb eb], c as [sc|sc| |sc mc ec];
    sf_signs; sf_compare.
Qed.

Lemma SFnlt_ltb_trans (a b c : spec_float) :
  a <> S754_nan -> b <> S754_nan ->
  SFltb a b = false -> SFltb a c = true -> SFltb b c = true.
Proof.
  unfold SFltb, SFcompare.
  destruct a as [sa|sa| |sa ma ea], b as [sb|sb| |sb mb eb], c as [sc|sc| |sc mc ec];
    sf_signs; sf_compare.
Qed.

Lemma SFnlt_leb (a b : spec_float) :
  a <> S754_nan -> b <> S754_nan ->
  SFltb a b = false -> SFleb b a = true.
Proof.
  unfold SFltb, SFleb, SFcompare.
  destruct a as [sa|sa| |sa ma ea], b as [sb|sb| |sb mb eb];
    sf_signs; sf_compare.
Qed.

Lemma SFltb_leb (a b : spec_float) : SFltb a b = true -> SFleb a b = true.
Proof.
  unfold SFltb, SFleb. destruct (SFcompare a b) as [[]|]; congruence.
Qed.

Lemma SFleb_refl (a : spec_float) : a <> S754_nan -> SFleb a a = true.
Proof.
  unfold SFleb, SFcompare. destruct a as [sa|sa| |sa ma ea]; sf_signs;
    sf_compare.
Qed.

Lemma SFleb_not_nan (a b : spec_float) :
  SFleb a b = true -> a <> S754_nan /\ b <> S754_nan.
Proof.
  unfold SFleb, SFcompare. destruct a, b; sf_signs; split; congruence.
Qed.

Lemma SFleb_ltb_trans (a b c : spec_float) :
  SFltb a b = true -> SFleb b c = true -> SFltb a c = true.
Proof.
  unfold SFltb, SFleb, SFcompare.
  destruct a as [sa|sa| |sa ma ea], b as [sb|sb| |sb mb eb], c as [sc|sc| |sc mc ec];
    sf_signs; sf_compare.
Qed.

Section FloatOrder.
Local Open Scope float_scope.
Implicit Types a b c : float.

Lemma ltb_trans a b c : (a <? b) = true -> (b <? c) = true -> (a <? c) = true.
Proof. rewrite !ltb_spec. apply SFltb_trans. Qed.

Lemma nlt_ltb_trans a b c :
  not_nan a -> not_nan b -> (a <? b) = false -> (a <? c) = true -> (b <? c) = true.
Proof. rewrite !ltb_spec. apply SFnlt_ltb_trans. Qed.

Lemma nlt_leb a b : not_nan a -> not_nan b -> (a <? b) = false -> (b <=? a) = true.
Proof. rewrite ltb_spec, leb_spec. apply SFnlt_leb. Qed.

Lemma ltb_leb a b : (a <? b) = true -> (a <=? b) = true.
Proof. rewrite ltb_spec, leb_spec. apply SFltb_leb. Qed.

Lemma leb_refl a : not_nan a -> (a <=? a) = true.
Proof. rewrite leb_spec. apply SFleb_refl. Qed.

Lemma leb_not_nan_r a b : (a <=? b) = true -> not_nan b.
Proof. rewrite leb_spec. intros H. now apply SFleb_not_nan in H. Qed.

Lemma ltb_leb_trans a b c : (a <? b) = true -> (b <=? c) = true -> (a <? c) = true.
Proof. rewrite !ltb_spec, leb_spec. apply SFleb_ltb_trans. Qed.

(** The loop's floor lies below every confidence of the data model. *)
Lemma floor_below a : (0 <=? a) = true -> ((-1) <? a) = true.
Proof. apply ltb_leb_trans. reflexivity. Qed.
End FloatOrder.

(** ** Best-detection loop *)

Lemma valid_box_inv (r_names : option (gmap Z string)) (b : box) :
  valid_box r_names b = true ->
  (exists label, resolve_class_name r_names (cls_id b) = Ok label) /\
  (0 <=? conf b)%float = true /\ (conf b <=? 1)%float = true.
Proof.
  unfold valid_box. destruct (resolve_class_name r_names (cls_id b)) as [label|e].
  - intros H. apply andb_true_iff in H as [H0 H1]. eauto.
  - discriminate.
Qed.

Lemma valid_box_not_nan (r_names : option (gmap Z string)) (b : box) :
  valid_box r_names b = true -> not_nan (conf b).
Proof.
  intros H. apply valid_box_inv in H as (_ & H0 & _).
  now apply leb_not_nan_r in H0.
Qed.

Lemma select_step_inv (r_names : option (gmap Z string))
    (visited : list box) (st : loop_state) (b : box) :
  Forall (fun b => valid_box r_names b = true) visited ->
  valid_box r_names b = true ->
  loop_inv r_names visited st ->
  exists st', select_step r_names st b = Ok st' /\
              loop_inv r_names (visited ++ [b]) st'.
Proof.
  intros Hvis Hb Hinv.
  pose proof (valid_box_not_nan _ _ Hb) as Hnan.
  destruct (valid_box_inv _ _ Hb) as ([label Hlabel] & H0 & _).
  unfold select_step. rewrite Hlabel.
  assert (Hcomp : component_of r_names b =
                  match parse_component (Some label) with
                  | Some comp => Some (comp, label)
                  | None => None
                  end) by (unfold component_of; now rewrite Hlabel).
  destruct st as [best best_conf]. unfold loop_inv in *. simpl in *.
  destruct (parse_component (Some label)) as [comp|] eqn:Hparse.
  - (* the box matches a component *)
    destruct best as [m|].
    + destruct Hinv as (before & b0 & after & -> & Hb0 & Hm & -> & Hbefore & Hafter).
      rewrite Forall_app, Forall_cons in Hvis. destruct Hvis as (Hv1 & Hv0 & Hv2).
      pose proof (valid_box_not_nan _ _ Hv0) as Hnan0.
      destruct (conf b0 <? conf b)%float eqn:Hlt.
      * (* strictly better: [b] replaces the running best *)
        eexists; split; [reflexivity|]. simpl.
        exists (before ++ b0 :: after), b, []. repeat split; auto.
        intros b' Hb' Hc'. rewrite elem_of_app, elem_of_cons in Hb'.
        destruct Hb' as [Hb' | [-> | Hb']].
        -- eapply ltb_trans; eauto.
        -- exact Hlt.
        -- rewrite Forall_forall in Hv2.
           eapply nlt_ltb_trans; [exact Hnan0 | | apply Hafter; auto | exact Hlt].
           apply (valid_box_not_nan r_names), Hv2, Hb'.
        -- intros b' Hb'. inversion Hb'.
      * (* not better: the running best stays *)
        eexists; split; [reflexivity|]. simpl.
        exists before, b0, (after ++ [b]). repeat split; auto.
        -- now rewrite <- app_assoc.
        -- intros b' Hb' Hc'. rewrite elem_of_app in Hb'.
           destruct Hb' as [Hb' | Hb']; auto.
           apply list_elem_of_singleton in Hb' as ->. exact Hlt.
    + destruct Hinv as (-> & Hnone).
      rewrite (floor_below _ H0).
      eexists; split; [reflexivity|]. simpl.
      exists visited, b, []. repeat split; auto.
      intros b' Hb'. inversion Hb'.
  - (* no component: [continue] *)
    eexists; split; [reflexivity|]. simpl.
    destruct best as [m|].
    + destruct Hinv as (before & b0 & after & -> & Hb0 & Hm & -> & Hbefore & Hafter).
      exists before, b0, (after ++ [b]). repeat split; auto.
      * now rewrite <- app_assoc.
      * intros b' Hb' Hc'. rewrite elem_of_app in Hb'.
        destruct Hb' as [Hb' | Hb']; auto.
        apply list_elem_of_singleton in Hb' as ->. congruence.
    + destruct Hinv as (-> & Hnone). split; auto.
      intros b' Hb'. rewrite elem_of_app in Hb'.
      destruct Hb' as [Hb' | Hb']; auto.
      apply list_elem_of_singleton in Hb' as ->. exact Hcomp.
Qed.

Lemma select_loop_inv (r_names : option (gmap Z string))
    (bs visited : list box) (st : loop_state) :
  Forall (fun b => valid_box r_names b = true) visited ->
  Forall (fun b => valid_box r_names b = true) bs ->
  loop_inv r_names visited st ->
  exists st', select_loop r_names st bs = Ok st' /\
              loop_inv r_names (visited ++ bs) st'.
Proof.
  revert visited st. induction bs as [|b bs IH]; intros visited st Hvis Hbs Hinv.
  - exists st. rewrite app_nil_r. now split.
  - apply Forall_cons in Hbs as [Hb Hbs].
    destruct (select_step_inv _ _ _ _ Hvis Hb Hinv) as (st1 & Hstep & Hinv1).
    destruct (IH (visited ++ [b]) st1) as (st' & Hloop & Hinv'); auto.
    { apply Forall_app. split; auto. }
    exists st'. simpl. rewrite Hstep. split; auto.
    now rewrite <- app_assoc in Hinv'.
Qed.

Lemma loop_inv_init (r_names : option (gmap Z string)) :
  loop_inv r_names [] (None, (-1)%float).
Proof. split; [reflexivity | intros b Hb; inversion Hb]. Qed.

Lemma select_best_inv (r_names : option (gmap Z string)) (bs : list box) :
  forallb (valid_box r_names) bs = true ->
  exists st, select_best r_names bs = Ok (fst st) /\ loop_inv r_names bs st.
Proof.
  intros Hvalid.
  assert (Hbs : Forall (fun b => valid_box r_names b = true) bs).
  { apply Forall_forall. intros b Hb. rewrite forallb_forall in Hvalid.
    apply Hvalid. now apply list_elem_of_In. }
  destruct (select_loop_inv r_names bs [] _ (List.Forall_nil _) Hbs (loop_inv_init r_names))
    as (st & Hloop & Hinv).
  exists st. unfold select_best. rewrite Hloop. now split.
Qed.

Lemma select_from_result_inv (r : yolo_result) :
  forallb (valid_box (names r)) (boxes_of r) = true ->
  exists st, select_from_result r = Ok (fst st) /\
             loop_inv (names r) (boxes_of r) st.
Proof.
  unfold select_from_result, boxes_of. destruct (boxes r) as [bs|]; simpl.
  - destruct bs as [|b bs].
    + intros _. exists (None, (-1)%float). split; [reflexivity | apply loop_inv_init].
    + change (py_len (b :: bs) =? 0) with (Z.of_nat (S (length bs)) =? 0).
      destruct (Z.eqb_spec (Z.of_nat (S (length bs))) 0) as [E|_]; [lia|].
      apply select_best_inv.
  - intros _. exists (None, (-1)%float). split; [reflexivity | apply loop_inv_init].
Qed.

(** C2.  The selector on a result whose detections are those of the data
    model (each has a class label, each confidence lies in [0, 1]).  It
    returns; it returns none exactly when no detection resolves to a
    component; and a returned match comes from a detection [b] of the list
    whose confidence is the maximum over the detections with a component
    and strictly above every such detection before [b], so that among
    equal maxima the first one is returned. *)
Theorem select_from_result_spec (r : yolo_result) :
  forallb (valid_box (names r)) (boxes_of r) = true ->
  exists best,
    select_from_result r = Ok best /\
    (best = None <->
       forall b, b ∈ boxes_of r -> component_of (names r) b = None) /\
    (forall m, best = Some m ->
       exists before b after,
         boxes_of r = before ++ b :: after /\
         component_of (names r) b = Some (component m, class_name m) /\
         confidence m = conf b /\
         (forall b', b' ∈ boxes_of r -> component_of (names r) b' <> None ->
                     (conf b' <=? conf b)%float = true) /\
         (forall b', b' ∈ before -> component_of (names r) b' <> None ->
                     (conf b' <? conf b)%float = true)).
Proof.
  intros Hvalid.
  destruct (select_from_result_inv r Hvalid) as ([best best_conf] & Hsel & Hinv).
  assert (Hbs : forall b, b ∈ boxes_of r -> not_nan (conf b)).
  { intros b Hb. apply (valid_box_not_nan (names r)).
    rewrite forallb_forall in Hvalid. apply Hvalid. now apply list_elem_of_In. }
  exists best. split; [exact Hsel|]. unfold loop_inv in Hinv. simpl in Hinv.
  destruct best as [m|].
  - destruct Hinv as (before & b & after & Hsplit & Hb & Hm & _ & Hbefore & Hafter).
    split.
    + split; [discriminate|]. intros Hnone.
      rewrite (Hnone b) in Hb; [discriminate|].
      rewrite Hsplit. apply elem_of_app. right. apply list_elem_of_here.
    + intros m' [= <-]. exists before, b, after. repeat split; auto.
      intros b' Hb' Hc'. 
      assert (Hnb : not_nan (conf b)).
      { apply Hbs. rewrite Hsplit. apply elem_of_app. right. apply list_elem_of_here. }
      pose proof (Hbs b' Hb') as Hnb'.
      rewrite Hsplit, elem_of_app, elem_of_cons in Hb'.
      destruct Hb' as [Hb' | [-> | Hb']].
      * apply ltb_leb. auto.
      * now apply leb_refl.
      * apply nlt_leb; auto.
  - destruct Hinv as (_ & Hnone). split; [now split | discriminate].
Qed.

Lemma select_from_result_spec_witness :
  forallb (valid_box (names scenario_result)) (boxes_of scenario_result) = true /\
  exists best,
    select_from_result scenario_result = Ok best /\
    (best = None <->
       forall b, b ∈ boxes_of scenario_result ->
                 component_of (names scenario_result) b = None) /\
    (forall m, best = Some m ->
       exists before b after,
         boxes_of scenario_result = before ++ b :: after /\
         component_of (names scenario_result) b = Some (component m, class_name m) /\
         confidence m = conf b /\
         (forall b', b' ∈ boxes_of scenario_result ->
                     component_of (names scenario_result) b' <> None ->
                     (conf b' <=? conf b)%float = true) /\
         (forall b', b' ∈ before -> component_of (names scenario_result) b' <> None ->
                     (conf b' <? conf b)%float = true)).
Proof.
  split; [reflexivity | apply (select_from_result_spec scenario_result); reflexivity].
Defined.

(** The specification's scenario: qr_code is ignored despite its higher
    confidence, and bolt_rust at 0.81 beats clip_ok at 0.60. *)
Example select_scenario :
  select_from_result scenario_result = Ok (Some (Detection "bolt" 0.81 "bolt_rust")).
Proof. reflexivity. Qed.

(** Equal confidences: the first matching box is kept. *)
Example select_tie :
  select_from_result (YoloResult None (Some [Box 0.5 24; Box 0.5 3; Box 0.5 0]))
  = Ok (Some (Detection "sleeper" 0.5 "sleeper_ok")).
Proof. reflexivity. Qed.

(** ** Heap and monad steps *)

Lemma snoc_lookup {A : Type} (h : list A) (d : A) : (h ++ [d]) !! length h = Some d.
Proof. now rewrite list_lookup_middle. Qed.

Lemma snoc_insert {A : Type} (h : list A) (d d' : A) :
  <[length h := d']> (h ++ [d]) = h ++ [d'].
Proof.
  rewrite insert_app_r_alt by lia. now rewrite Nat.sub_diag.
Qed.

Lemma setitem_run (r : nat) (k : string) (v : jvalue) (d : pydict)
    (h : list pydict) (db : option firestore) (t : list event) :
  h !! r = Some d ->
  setitem r k v (World h db t) = (Ok tt, World (<[r := <[k := v]> d]> h) db t).
Proof. intros H. unfold setitem, bind, read_dict. simpl. now rewrite H. Qed.

Lemma setitem_snoc (k : string) (v : jvalue) (d : pydict)
    (h : list pydict) (db : option firestore) (t : list event) :
  setitem (length h) k v (World (h ++ [d]) db t)
  = (Ok tt, World (h ++ [<[k := v]> d]) db t).
Proof. rewrite (setitem_run _ _ _ d) by apply snoc_lookup. now rewrite snoc_insert. Qed.

Lemma read_dict_run (r : nat) (d : pydict) (w : world) :
  heap w !! r = Some d -> read_dict r w = (Ok d, w).
Proof. intros H. unfold read_dict. now rewrite H. Qed.

Lemma bind_run {A B : Type} (c : M A) (k : A -> M B) (w w' : world) (a : A) :
  c w = (Ok a, w') -> bind c k w = k a w'.
Proof. intros H. unfold bind. now rewrite H. Qed.

Lemma bind_raise {A B : Type} (c : M A) (k : A -> M B) (w w' : world) (e : exn) :
  c w = (Raise e, w') -> bind c k w = (Raise e, w').
Proof. intros H. unfold bind. now rewrite H. Qed.

(** ** Persistence adapter *)

(** The adapter's run from a world whose heap holds the record [d] at
    [r]: nothing but the event without a store; otherwise the copy with
    the six added fields is allocated, a reference is minted, and the
    write either lands or raises. *)
Lemma save_result_to_firestore_run (cfg : config) (r : nat)
    (material_id source : string) (d : pydict)
    (h : list pydict) (db : option firestore) (t : list event) :
  h !! r = Some d ->
  save_result_to_firestore cfg r material_id source (World h db t) =
  match db with
  | None => (Ok None, World h None (t ++ [EvPersistence]))
  | Some fs =>
      let id := auto_id (minted fs) in
      let doc := document_of cfg material_id source id d in
      match refusing fs with
      | Some msg =>
          (Raise (CollaboratorError msg),
           World (h ++ [doc])
                 (Some (Firestore (documents fs) (S (minted fs)) (Some msg)))
                 (t ++ [EvPersistence]))
      | None =>
          (Ok (Some id),
           World (h ++ [doc])
                 (Some (Firestore (documents fs ++ [(FIRESTORE_COLLECTION cfg, id, doc)])
                                  (S (minted fs)) None))
                 (t ++ [EvPersistence]))
      end
  end.
Proof.
  intros Hr. unfold save_result_to_firestore.
  rewrite (bind_run _ _ _ (World h db (t ++ [EvPersistence])) tt) by reflexivity.
  rewrite (bind_run _ _ _ (World h db (t ++ [EvPersistence])) db) by reflexivity.
  destruct db as [fs|]; [|reflexivity].
  rewrite (bind_run _ _ _ (World (h ++ [d]) (Some fs) (t ++ [EvPersistence])) (length h)).
  2:{ unfold dict_copy. rewrite (bind_run _ _ _ _ d) by now apply read_dict_run.
      reflexivity. }
  do 5 (erewrite bind_run by apply setitem_snoc).
  erewrite bind_run by reflexivity. cbn [heap db_fs trace].
  erewrite bind_run by apply setitem_snoc.
  erewrite bind_run by (apply read_dict_run, snoc_lookup).
  fold (document_of cfg material_id source (auto_id (minted fs)) d).
  unfold bind, document_set. cbn [db_fs refusing heap trace minted documents].
  destruct fs as [docs n [msg|]]; reflexivity.
Qed.

Lemma document_of_lookup_other (cfg : config) (material_id source id : string)
    (d : pydict) (k : string) :
  k ∉ PROVENANCE_FIELDS -> k <> "id" ->
  document_of cfg material_id source id d !! k = d !! k.
Proof.
  unfold PROVENANCE_FIELDS. rewrite !not_elem_of_cons. intros (? & ? & ? & ? & ? & _) ?.
  unfold document_of. now rewrite !lookup_insert_ne by congruence.
Qed.

Lemma document_of_dom (cfg : config) (material_id source id : string) (d : pydict) :
  dom (document_of cfg material_id source id d)
  = dom d ∪ list_to_set PROVENANCE_FIELDS ∪ {["id"]}.
Proof.
  unfold document_of, PROVENANCE_FIELDS. rewrite !dom_insert_L. simpl. set_solver.
Qed.

(** C5.  Without a store the adapter returns none and does not
    raise.  With a store that accepts the write, the stored document
    keeps every field of the record with its value, and adds the five
    provenance fields and the generated document id under [id], which is
    also the returned id; it has no other keys. *)
Theorem save_result_document (cfg : config) (r : nat)
    (material_id source : string) (w : world) :
  (db_fs w = None ->
   save_result_to_firestore cfg r material_id source w
   = (Ok None, World (heap w) None (trace w ++ [EvPersistence])))
  /\ (forall d fs,
        heap w !! r = Some d -> db_fs w = Some fs -> refusing fs = None ->
        exists doc,
          save_result_to_firestore cfg r material_id source w
          = (Ok (Some (auto_id (minted fs))),
             World (heap w ++ [doc])
                   (Some (Firestore
                            (documents fs ++
                               [(FIRESTORE_COLLECTION cfg, auto_id (minted fs), doc)])
                            (S (minted fs)) None))
                   (trace w ++ [EvPersistence]))
          /\ (forall k, k ∉ PROVENANCE_FIELDS -> k <> "id" -> doc !! k = d !! k)
          /\ dom doc = dom d ∪ list_to_set PROVENANCE_FIELDS ∪ {["id"]}
          /\ doc !! "materialId" = Some (str_or_none material_id)
          /\ doc !! "source" = Some (str_or_none source)
          /\ doc !! "threshold" = Some (JNum (CONF_THRESHOLD cfg))
          /\ doc !! "model" = Some (JStr (basename (PT_MODEL_PATH cfg)))
          /\ doc !! "createdAt" = Some JServerTimestamp
          /\ doc !! "id" = Some (JStr (auto_id (minted fs)))
          /\ (dom d = list_to_set RESULT_FIELDS ->
              (forall k, k ∈ RESULT_FIELDS -> doc !! k = d !! k) /\
              dom doc = list_to_set (RESULT_FIELDS ++ PROVENANCE_FIELDS ++ ["id"]))).
Proof.
  destruct w as [h db t]. simpl. split.
  - intros ->. reflexivity.
  - intros d fs Hr -> Hfs.
    rewrite (save_result_to_firestore_run _ _ _ _ d) by exact Hr.
    cbv zeta. rewrite Hfs.
    exists (document_of cfg material_id source (auto_id (minted fs)) d).
    split; [reflexivity|].
    split; [intros k; apply document_of_lookup_other|].
    split; [apply document_of_dom|].
    repeat (split; [unfold document_of; now simplify_map_eq|]).
    intros Hdom. split.
    + intros k Hk. apply document_of_lookup_other.
      * revert Hk. unfold RESULT_FIELDS, PROVENANCE_FIELDS. set_solver.
      * revert Hk. unfold RESULT_FIELDS. set_solver.
    + rewrite document_of_dom, Hdom. unfold RESULT_FIELDS, PROVENANCE_FIELDS.
      simpl. set_solver.
Qed.

(** The adapter on a stored not-detected record: the document written to
    Firestore has the key [id], which is neither a field of the record nor
    one of the five provenance fields. *)
Lemma stored_document_sixth_field :
  exists doc,
    save_result_to_firestore sample_config 0 "M-17" "verify_web"
      (World [verdict_of None] (Some (Firestore [] 0 None)) [])
    = (Ok (Some "doc0"),
       World [verdict_of None; doc]
             (Some (Firestore [("ai_verifications", "doc0", doc)] 1 None))
             [EvPersistence])
    /\ doc !! "id" = Some (JStr "doc0")
    /\ ("id" ∉ (RESULT_FIELDS ++ PROVENANCE_FIELDS))
    /\ dom doc <> dom (verdict_of None) ∪ list_to_set PROVENANCE_FIELDS.
Proof.
  eexists. split; [|split; [|split]].
  - rewrite (save_result_to_firestore_run _ _ _ _ (verdict_of None)) by reflexivity.
    reflexivity.
  - reflexivity.
  - apply (bool_decide_unpack _). vm_compute. exact I.
  - intros H.
    assert (Hin : "id" ∈ dom (verdict_of None) ∪ list_to_set PROVENANCE_FIELDS).
    { rewrite <- H, document_of_dom. set_solver. }
    revert Hin. unfold verdict_of, PROVENANCE_FIELDS.
    rewrite !dom_insert_L. set_solver.
Qed.

(** ** Handlers, step by step *)

Lemma run_pt_inference_run (cfg : config) (env : collaborators) (img : image)
    (h : list pydict) (db : option firestore) (t : list event) :
  run_pt_inference cfg env img (World h db t)
  = (fst (run_pt_inference cfg env img (World h db t)),
     World h db (t ++ [EvInference])).
Proof.
  unfold run_pt_inference, bind, log, lift. simpl.
  destruct (predict env _ _) as [results|e]; [|reflexivity].
  destruct (py_index results 0) as [r|e]; reflexivity.
Qed.

Lemma verify_web_result_run (det : option detection)
    (h : list pydict) (db : option firestore) (t : list event) :
  verify_web_result det (World h db t)
  = (Ok (length h), World (h ++ [verdict_of det]) db t).
Proof. destruct det; reflexivity. Qed.

Lemma api_verify_result_run (det : option detection)
    (h : list pydict) (db : option firestore) (t : list event) :
  api_verify_result det (World h db t)
  = (Ok (length h), World (h ++ [verdict_of det]) db t).
Proof. destruct det; reflexivity. Qed.

Lemma py_text_or_empty (s : string) : py_text (py_or (JStr s) (JStr "")) = ret s.
Proof.
  unfold py_or, py_truthy. destruct (String.eqb_spec s "") as [->|_]; reflexivity.
Qed.

Lemma py_text_doc_id (doc_id : option string) :
  py_text (py_or (of_option_str doc_id) (JStr "")) = ret (default "" doc_id).
Proof. destruct doc_id as [s|]; [apply py_text_or_empty | reflexivity]. Qed.

(** What [save_result_to_firestore] leaves behind, whatever its outcome:
    the heap grows at the end and the objects already there keep their
    contents. *)
Lemma save_result_to_firestore_frame (cfg : config) (r : nat)
    (material_id source : string) (d : pydict) (w : world) :
  heap w !! r = Some d ->
  exists new, heap (snd (save_result_to_firestore cfg r material_id source w))
              = heap w ++ new.
Proof.
  destruct w as [h db t]. simpl. intros Hr.
  rewrite (save_result_to_firestore_run _ _ _ _ d) by exact Hr.
  destruct db as [fs|]; [|exists []; simpl; now rewrite app_nil_r].
  cbv zeta. destruct (refusing fs); eexists; reflexivity.
Qed.

(** The redirect branch of [verify_web] (lines 255-263), run on a heap
    that holds the record of [det] at [r]. *)
Lemma redirect_branch_run (cb material_id : string) (det : option detection)
    (doc_id : option string) (r : nat) (w : world) :
  heap w !! r = Some (verdict_of det) ->
  (let* status := getitem r "status" in
   let* status_text := py_text status in
   let* comp := getitem r "component" in
   let* comp_text := py_text (py_or comp (JStr "")) in
   let* c := getitem r "confidence" in
   let* x := py_float c in
   let* doc_text := py_text (py_or (of_option_str doc_id) (JStr "")) in
   let q := urlencode [("id", material_id);
                       ("aiStatus", status_text);
                       ("aiComponent", comp_text);
                       ("aiConfidence", format_6f x);
                       ("aiDocId", doc_text)] in
   ret (Redirect (cb ++ "?" ++ q)%string 302)) w
  = (Ok (Redirect (cb ++ "?" ++ urlencode (redirect_query material_id det doc_id))%string 302), w).
Proof.
  intros Hr. unfold getitem.
  rewrite (bind_run _ _ _ w (JStr match det with Some _ => "verified" | None => "not_detected" end)).
  2:{ rewrite (bind_run _ _ _ w (verdict_of det)) by now apply read_dict_run.
      destruct det; reflexivity. }
  rewrite (bind_run _ _ _ w _) by reflexivity.
  rewrite (bind_run _ _ _ w (match det with Some m => JStr (component m) | None => JNull end)).
  2:{ rewrite (bind_run _ _ _ w (verdict_of det)) by now apply read_dict_run.
      destruct det; reflexivity. }
  rewrite (bind_run _ _ _ w (match det with Some m => component m | None => "" end)).
  2:{ destruct det as [m|]; [now rewrite py_text_or_empty | reflexivity]. }
  rewrite (bind_run _ _ _ w (JNum (match det with Some m => confidence m | None => 0%float end))).
  2:{ rewrite (bind_run _ _ _ w (verdict_of det)) by now apply read_dict_run.
      destruct det; reflexivity. }
  rewrite (bind_run _ _ _ w _) by reflexivity.
  rewrite py_text_doc_id.
  reflexivity.
Qed.

(** The JSON tail shared by both handlers (lines 266-267 and 307-308). *)
Lemma json_branch_run (doc_id : option string) (d : pydict) (r : nat)
    (h : list pydict) (db : option firestore) (t : list event) :
  h !! r = Some d ->
  (setitem r "docId" (of_option_str doc_id) ;;
   let* body := read_dict r in
   ret (Json body 200)) (World h db t)
  = (Ok (Json (<["docId" := of_option_str doc_id]> d) 200),
     World (<[r := <["docId" := of_option_str doc_id]> d]> h) db t).
Proof.
  intros Hr.
  erewrite bind_run by (apply (setitem_run _ _ _ d); exact Hr).
  erewrite bind_run.
  2:{ apply read_dict_run. simpl. apply list_lookup_insert_eq.
      now apply lookup_lt_Some in Hr. }
  reflexivity.
Qed.

(** [verify_web] on a request whose image is present and decodes and
    whose inference returns [det]: the record is allocated, the adapter
    runs on it, and its outcome decides the response. *)
Lemma verify_web_run (cfg : config) (env : collaborators) (req : request)
    (h : list pydict) (db : option firestore) (t : list event)
    (img : image) (det : option detection) :
  no_file (files_image req) = false ->
  imdecode env (file_bytes (files_image req)) = Ok (Some img) ->
  fst (run_pt_inference cfg env img (World h db t)) = Ok det ->
  verify_web cfg env req (World h db t) =
  let material_id := default "" (form_materialId req) in
  let cb := default "" (form_callback req) in
  match save_result_to_firestore cfg (length h) material_id "verify_web"
          (World (h ++ [verdict_of det]) db (t ++ [EvInference])) with
  | (Raise e, w2) => (Raise e, w2)
  | (Ok doc_id, w2) =>
      if (cb =? "")%string
      then (Ok (Json (<["docId" := of_option_str doc_id]> (verdict_of det)) 200),
            World (<[length h := <["docId" := of_option_str doc_id]> (verdict_of det)]>
                     (heap w2))
                  (db_fs w2) (trace w2))
      else (Ok (Redirect (cb ++ "?" ++
                          urlencode (redirect_query material_id det doc_id))%string 302),
            w2)
  end.
Proof.
  intros Hfile Himg Hdet. unfold verify_web. rewrite Hfile, Himg.
  rewrite (bind_run _ _ _ (World h db (t ++ [EvInference])) det).
  2:{ rewrite run_pt_inference_run. now rewrite Hdet. }
  rewrite (bind_run _ _ _ _ _ (verify_web_result_run det h db _)).
  cbv zeta.
  pose proof (save_result_to_firestore_frame cfg (length h)
                (default "" (form_materialId req)) "verify_web" (verdict_of det)
                (World (h ++ [verdict_of det]) db (t ++ [EvInference]))
                (snoc_lookup h _)) as [new Hnew].
  destruct (save_result_to_firestore cfg (length h) _ "verify_web" _)
    as [[doc_id|e] [h2 db2 t2]] eqn:Hsave.
  - simpl in Hnew. subst h2.
    assert (Hr : ((h ++ [verdict_of det]) ++ new) !! length h = Some (verdict_of det)).
    { rewrite lookup_app_l; [apply snoc_lookup | rewrite length_app; simpl; lia]. }
    erewrite bind_run by exact Hsave.
    destruct (default "" (form_callback req) =? "")%string; simpl negb; cbv iota.
    + now apply json_branch_run.
    + now apply redirect_branch_run.
  - now erewrite bind_raise by exact Hsave.
Qed.

(** [api_verify] on such a request. *)
Lemma api_verify_run (cfg : config) (env : collaborators) (req : request)
    (h : list pydict) (db : option firestore) (t : list event)
    (img : image) (det : option detection) :
  (method req =? "OPTIONS")%string = false ->
  no_file (files_image req) = false ->
  imdecode env (file_bytes (files_image req)) = Ok (Some img) ->
  fst (run_pt_inference cfg env img (World h db t)) = Ok det ->
  api_verify cfg env req (World h db t) =
  let material_id := default "" (form_materialId req) in
  match save_result_to_firestore cfg (length h) material_id "api_verify"
          (World (h ++ [verdict_of det]) db (t ++ [EvInference])) with
  | (Raise e, w2) => (Raise e, w2)
  | (Ok doc_id, w2) =>
      (Ok (Json (<["docId" := of_option_str doc_id]> (verdict_of det)) 200),
       World (<[length h := <["docId" := of_option_str doc_id]> (verdict_of det)]>
                (heap w2))
             (db_fs w2) (trace w2))
  end.
Proof.
  intros Hmethod Hfile Himg Hdet. unfold api_verify. rewrite Hmethod, Hfile, Himg.
  rewrite (bind_run _ _ _ (World h db (t ++ [EvInference])) det).
  2:{ rewrite run_pt_inference_run. now rewrite Hdet. }
  rewrite (bind_run _ _ _ _ _ (api_verify_result_run det h db _)).
  cbv zeta.
  pose proof (save_result_to_firestore_frame cfg (length h)
                (default "" (form_materialId req)) "api_verify" (verdict_of det)
                (World (h ++ [verdict_of det]) db (t ++ [EvInference]))
                (snoc_lookup h _)) as [new Hnew].
  destruct (save_result_to_firestore cfg (length h) _ "api_verify" _)
    as [[doc_id|e] [h2 db2 t2]] eqn:Hsave.
  - simpl in Hnew. subst h2.
    assert (Hr : ((h ++ [verdict_of det]) ++ new) !! length h = Some (verdict_of det)).
    { rewrite lookup_app_l; [apply snoc_lookup | rewrite length_app; simpl; lia]. }
    erewrite bind_run by exact Hsave.
    now apply json_branch_run.
  - now erewrite bind_raise by exact Hsave.
Qed.

(** ** Class-label resolution *)

Lemma py_index_in_range {A : Type} (l : list A) (i : Z) :
  0 <= i < py_len l ->
  exists x, l !! Z.to_nat i = Some x /\ py_index l i = Ok x.
Proof.
  intros [Hlo Hhi]. unfold py_index.
  destruct (Z.ltb_spec i 0) as [?|_]; [lia|]. cbv zeta.
  destruct (Z.ltb_spec i 0) as [?|_]; [lia|].
  destruct (Z.leb_spec (py_len l) i) as [?|_]; [lia|]. simpl.
  destruct (l !! Z.to_nat i) as [x|] eqn:E; [now exists x|].
  apply lookup_ge_None in E. unfold py_len in Hhi. lia.
Qed.

(** C7.  Label resolution for a box whose class id is a class index,
    that is, not negative: the entry of the model's label map for the id
    when the map exists and has it; otherwise the entry of the static
    table at the id when the id is below 25, the table's length;
    otherwise the decimal text of the id.  The loop's step consults the
    matcher on the resolved label only. *)
Theorem resolve_class_name_precedence (r_names : option (gmap Z string))
    (st : loop_state) (b : box) :
  0 <= cls_id b ->
  let table :=
    [ "clip_ok"; "liner_ok"; "pad_ok"; "sleeper_ok"; "bolt_ok"; "erc_ok";
      "clip_faulty"; "liner_faulty"; "pad_faulty"; "sleeper_faulty";
      "bolt_faulty"; "erc_faulty";
      "clip_rust"; "liner_rust"; "pad_rust"; "sleeper_rust"; "bolt_rust";
      "erc_rust";
      "clip_missing"; "liner_missing"; "pad_missing"; "sleeper_missing";
      "bolt_missing"; "erc_missing";
      "qr_code" ] in
  (forall d label,
     r_names = Some d -> d !! cls_id b = Some label ->
     resolve_class_name r_names (cls_id b) = Ok label)
  /\ ((r_names = None \/ exists d, r_names = Some d /\ d !! cls_id b = None) ->
      (cls_id b < 25 ->
       exists label,
         table !! Z.to_nat (cls_id b) = Some label /\
         resolve_class_name r_names (cls_id b) = Ok label)
      /\ (25 <= cls_id b ->
          resolve_class_name r_names (cls_id b)
          = Ok (NilZero.string_of_int (Z.to_int (cls_id b)))))
  /\ (forall label,
        resolve_class_name r_names (cls_id b) = Ok label ->
        select_step r_names st b =
        Ok (match parse_component (Some label) with
            | Some comp =>
                if (snd st <? conf b)%float
                then (Some (Detection comp (conf b) label), conf b)
                else st
            | None => st
            end)).
Proof.
  intros Hid. cbv zeta. split; [|split].
  - intros d label -> Hd. unfold resolve_class_name, label_map_entry. now rewrite Hd.
  - intros Hmap.
    assert (Hfall : resolve_class_name r_names (cls_id b) =
                    if cls_id b <? 25
                    then py_index CLASS_NAMES (cls_id b)
                    else Ok (py_str (cls_id b))).
    { unfold resolve_class_name, label_map_entry.
      destruct Hmap as [-> | (d & -> & Hd)]; [reflexivity | now rewrite Hd]. }
    rewrite Hfall. split.
    + intros Hrange. destruct (Z.ltb_spec (cls_id b) 25); [|lia].
      apply (py_index_in_range CLASS_NAMES). unfold py_len. simpl. lia.
    + intros Hge. destruct (Z.ltb_spec (cls_id b) 25); [lia|].
      reflexivity.
  - intros label Hlabel. unfold select_step. rewrite Hlabel.
    destruct (parse_component (Some label)); [|reflexivity].
    destruct (snd st <? conf b)%float; reflexivity.
Qed.

Lemma resolve_class_name_precedence_witness :
  (forall d label,
     (Some {[ 3 := "Clip-OK" ]} : option (gmap Z string)) = Some d ->
     d !! cls_id (Box 0.81 16) = Some label ->
     resolve_class_name (Some {[ 3 := "Clip-OK" ]}) (cls_id (Box 0.81 16)) = Ok label)
  /\ (((Some {[ 3 := "Clip-OK" ]} : option (gmap Z string)) = None
       \/ exists d, (Some {[ 3 := "Clip-OK" ]} : option (gmap Z string)) = Some d
                    /\ d !! cls_id (Box 0.81 16) = None) ->
      (cls_id (Box 0.81 16) < 25 ->
       exists label,
         [ "clip_ok"; "liner_ok"; "pad_ok"; "sleeper_ok"; "bolt_ok"; "erc_ok";
           "clip_faulty"; "liner_faulty"; "pad_faulty"; "sleeper_faulty";
           "bolt_faulty"; "erc_faulty";
           "clip_rust"; "liner_rust"; "pad_rust"; "sleeper_rust"; "bolt_rust";
           "erc_rust";
           "clip_missing"; "liner_missing"; "pad_missing"; "sleeper_missing";
           "bolt_missing"; "erc_missing";
           "qr_code" ] !! Z.to_nat (cls_id (Box 0.81 16)) = Some label /\
         resolve_class_name (Some {[ 3 := "Clip-OK" ]}) (cls_id (Box 0.81 16)) = Ok label)
      /\ (25 <= cls_id (Box 0.81 16) ->
          resolve_class_name (Some {[ 3 := "Clip-OK" ]}) (cls_id (Box 0.81 16))
          = Ok (NilZero.string_of_int (Z.to_int (cls_id (Box 0.81 16))))))
  /\ (forall label,
        resolve_class_name (Some {[ 3 := "Clip-OK" ]}) (cls_id (Box 0.81 16)) = Ok label ->
        select_step (Some {[ 3 := "Clip-OK" ]}) ((None, (-1)%float) : loop_state) (Box 0.81 16) =
        Ok (match parse_component (Some label) with
            | Some comp =>
                if (snd ((None, (-1)%float) : loop_state) <? conf (Box 0.81 16))%float
                then (Some (Detection comp (conf (Box 0.81 16)) label), conf (Box 0.81 16))
                else ((None, (-1)%float) : loop_state)
            | None => ((None, (-1)%float) : loop_state)
            end)).
Proof.
  apply (resolve_class_name_precedence (Some {[ 3 := "Clip-OK" ]}) ((None, (-1)%float) : loop_state)
           (Box 0.81 16)).
  simpl. lia.
Defined.

(** Outside the class indices: without a label map, class id -30 is
    neither looked up in range nor printed, the guard
    [cls_id < len(CLASS_NAMES)] lets it through and the indexing raises;
    class id -1 reads the table from its end. *)
Lemma resolve_class_name_negative_id :
  resolve_class_name None (-30) = Raise IndexError
  /\ resolve_class_name None (-30) <> Ok (py_str (-30))
  /\ py_str (-30) = "-30"
  /\ resolve_class_name None (-1) = Ok "qr_code".
Proof. repeat split; try reflexivity. discriminate. Qed.

Example resolve_from_label_map :
  resolve_class_name (Some {[ 3 := "Clip-OK" ]}) 3 = Ok "Clip-OK".
Proof. reflexivity. Qed.

Example resolve_from_table :
  resolve_class_name (Some {[ 3 := "Clip-OK" ]}) 16 = Ok "bolt_rust".
Proof. reflexivity. Qed.

Example resolve_out_of_range : resolve_class_name None 25 = Ok "25".
Proof. reflexivity. Qed.

(** ** Verdict records *)

(** C4.  The record either handler builds from the selector's output is
    the same, whatever the world: a new object with exactly the fields ok,
    status, component and confidence; ok is true; none gives status
    not_detected, a null component and confidence 0.0; a match gives
    status verified, the match's component, and the match's confidence
    as it is. *)
Theorem verdict_builder (det : option detection) (w : world) :
  verify_web_result det w
  = (Ok (length (heap w)), World (heap w ++ [verdict_of det]) (db_fs w) (trace w))
  /\ api_verify_result det w
     = (Ok (length (heap w)), World (heap w ++ [verdict_of det]) (db_fs w) (trace w))
  /\ dom (verdict_of det) = list_to_set RESULT_FIELDS
  /\ verdict_of det !! "ok" = Some (JBool true)
  /\ match det with
     | None =>
         verdict_of det !! "status" = Some (JStr "not_detected") /\
         verdict_of det !! "component" = Some JNull /\
         verdict_of det !! "confidence" = Some (JNum 0)
     | Some m =>
         verdict_of det !! "status" = Some (JStr "verified") /\
         verdict_of det !! "component" = Some (JStr (component m)) /\
         verdict_of det !! "confidence" = Some (JNum (confidence m))
     end.
Proof.
  destruct w as [h db t]. simpl.
  split; [apply verify_web_result_run|].
  split; [apply api_verify_result_run|].
  split.
  - destruct det; unfold verdict_of, RESULT_FIELDS; rewrite !dom_insert_L; simpl;
      set_solver.
  - destruct det; unfold verdict_of; repeat split; now simplify_map_eq.
Qed.

(** The specification's scenario, through the builder. *)
Example verdict_scenario :
  exists d,
    verify_web_result (Some (Detection "bolt" 0.81 "bolt_rust")) world_no_store
    = (Ok 0%nat, World [d] None [])
    /\ map_to_list d = [("ok", JBool true); ("status", JStr "verified");
                        ("component", JStr "bolt"); ("confidence", JNum 0.81)].
Proof. eexists. split; reflexivity. Qed.

(** ** Matches at confidence zero *)

(** C10.  On detections of the data model, one detection that resolves
    to a component is enough for the selector to return a match: the
    floor -1.0 lies strictly below every confidence, 0.0 included.  So the
    detections qr_code, clip_ok and erc_ok, all at 0.0, give a verified
    record whose confidence is 0.0, the confidence of a not_detected
    record. *)
Theorem select_some_on_match (r : yolo_result) :
  forallb (valid_box (names r)) (boxes_of r) = true ->
  (exists b, b ∈ boxes_of r /\ component_of (names r) b <> None) ->
  (exists m, select_from_result r = Ok (Some m))
  /\ (exists m d,
        select_from_result zero_confidence_result = Ok (Some m)
        /\ confidence m = 0%float
        /\ verify_web_result (Some m) world_no_store = (Ok 0%nat, World [d] None [])
        /\ d !! "status" = Some (JStr "verified")
        /\ d !! "confidence" = Some (JNum 0)
        /\ d !! "confidence" = verdict_of None !! "confidence").
Proof.
  intros Hvalid (b & Hb & Hcomp). split.
  - destruct (select_from_result_inv r Hvalid) as ([best best_conf] & Hsel & Hinv).
    destruct best as [m|]; [now exists m|].
    destruct Hinv as (_ & Hnone). simpl in Hnone.
    now rewrite (Hnone b Hb) in Hcomp.
  - exists (Detection "clip" 0 "clip_ok"). eexists. repeat split.
Qed.

Lemma select_some_on_match_witness :
  (exists m, select_from_result zero_confidence_result = Ok (Some m))
  /\ (exists m d,
        select_from_result zero_confidence_result = Ok (Some m)
        /\ confidence m = 0%float
        /\ verify_web_result (Some m) world_no_store = (Ok 0%nat, World [d] None [])
        /\ d !! "status" = Some (JStr "verified")
        /\ d !! "confidence" = Some (JNum 0)
        /\ d !! "confidence" = verdict_of None !! "confidence").
Proof.
  apply (select_some_on_match zero_confidence_result).
  - reflexivity.
  - exists (Box 0 0). split; [|discriminate].
    apply list_elem_of_further, list_elem_of_here.
Defined.

(** ** Missing image *)

(** C6.  A POST without an [image] file (the field is absent,
    or its filename is empty) ends in the handler's first check: the world
    is left as it was, so neither inference nor the adapter was entered
    and no record was built.  [api_verify] answers 400 with a JSON body
    whose ok is false and whose error is a message; [verify_web] answers
    400 with the plain text "No image". *)
Theorem missing_image_rejected (cfg : config) (env : collaborators)
    (req : request) (w : world) :
  method req = "POST" ->
  no_file (files_image req) = true ->
  verify_web cfg env req w = (Ok (Text "No image" 400), w)
  /\ exists body,
       api_verify cfg env req w = (Ok (Json body 400), w)
       /\ body !! "ok" = Some (JBool false)
       /\ body !! "error" = Some (JStr "image is required").
Proof.
  intros Hmethod Hfile. split.
  - unfold verify_web. now rewrite Hfile.
  - eexists. unfold api_verify. rewrite Hmethod, Hfile. simpl.
    split; [reflexivity|]. split; reflexivity.
Qed.

Lemma missing_image_rejected_witness :
  verify_web sample_config sample_env imageless_request world_store
  = (Ok (Text "No image" 400), world_store)
  /\ exists body,
       api_verify sample_config sample_env imageless_request world_store
       = (Ok (Json body 400), world_store)
       /\ body !! "ok" = Some (JBool false)
       /\ body !! "error" = Some (JStr "image is required").
Proof.
  apply (missing_image_rejected sample_config sample_env imageless_request world_store);
    reflexivity.
Defined.

(** [verify_web] without the [image] field: the body of the 400 response
    is a text, with no ok flag in it. *)
Lemma verify_web_missing_image_text :
  files_image imageless_request = None
  /\ fst (verify_web sample_config sample_env imageless_request world_store)
     = Ok (Text "No image" 400)
  /\ forall body status,
       fst (verify_web sample_config sample_env imageless_request world_store)
       <> Ok (Json body status).
Proof. repeat split. intros body status. discriminate. Qed.

(** ** Persistence outcomes and the response *)




(** ** The redirect *)


(** ** Separators of a query string *)

Lemma count_char_append (c : ascii) (s1 s2 : string) :
  count_char c (s1 ++ s2)%string = (count_char c s1 + count_char c s2)%nat.
Proof. induction s1 as [|a s1 IH]; simpl; [reflexivity | rewrite IH; lia]. Qed.

Lemma hex_digit_safe (a : ascii) :
  url_safe (hex_digit (N_of_ascii a / 16)) = true
  /\ url_safe (hex_digit (N_of_ascii a mod 16)) = true.
Proof. destruct a as [[] [] [] [] [] [] [] []]; split; reflexivity. Qed.

Lemma count_char_cons (c a : ascii) (s : string) :
  count_char c (String a s)
  = ((if Ascii.eqb a c then 1 else 0) + count_char c s)%nat.
Proof. reflexivity. Qed.

Lemma count_char_quote_plus (c : ascii) (s : string) :
  url_safe c = false -> c <> "+"%char -> c <> "%"%char ->
  count_char c (quote_plus s) = 0%nat.
Proof.
  intros Hsafe Hplus Hpct. induction s as [|a s IH]; [reflexivity|].
  cbn [quote_plus]. cbv zeta.
  destruct (url_safe a) eqn:Ha.
  - rewrite count_char_cons.
    destruct (Ascii.eqb_spec a c) as [->|_]; [congruence | exact IH].
  - destruct (hex_digit_safe a) as [H1 H2].
    destruct (N_of_ascii a =? 32)%N.
    + rewrite count_char_cons.
      destruct (Ascii.eqb_spec "+"%char c) as [<-|_]; [congruence | exact IH].
    + rewrite !count_char_cons.
      destruct (Ascii.eqb_spec "%"%char c) as [<-|_]; [congruence|].
      destruct (Ascii.eqb_spec (hex_digit (N_of_ascii a / 16)) c) as [<-|_];
        [congruence|].
      destruct (Ascii.eqb_spec (hex_digit (N_of_ascii a mod 16)) c) as [<-|_];
        [congruence | exact IH].
Qed.

Lemma count_char_single (c a : ascii) :
  count_char c (String a "") = if Ascii.eqb a c then 1%nat else 0%nat.
Proof. rewrite count_char_cons. cbn [count_char]. now destruct (Ascii.eqb a c). Qed.

Lemma count_char_pair (c : ascii) (kv : string * string) :
  url_safe c = false -> c <> "+"%char -> c <> "%"%char ->
  count_char c (quote_plus (fst kv) ++ "=" ++ quote_plus (snd kv))%string
  = if Ascii.eqb "="%char c then 1%nat else 0%nat.
Proof.
  intros Hsafe Hplus Hpct. rewrite !count_char_append.
  rewrite !count_char_quote_plus by assumption.
  rewrite count_char_single. destruct (Ascii.eqb "="%char c); reflexivity.
Qed.

Lemma concat_cons_cons (sep a b : string) (l : list string) :
  String.concat sep (a :: b :: l) = (a ++ sep ++ String.concat sep (b :: l))%string.
Proof. reflexivity. Qed.

Lemma count_char_urlencode (c : ascii) (q : list (string * string)) :
  url_safe c = false -> c <> "+"%char -> c <> "%"%char ->
  count_char c (urlencode q)
  = ((if Ascii.eqb "="%char c then length q else 0)
     + (if Ascii.eqb "&"%char c then length q - 1 else 0))%nat.
Proof.
  intros Hsafe Hplus Hpct. unfold urlencode.
  induction q as [|kv q IH].
  { cbn [map String.concat length count_char].
    destruct (Ascii.eqb "="%char c), (Ascii.eqb "&"%char c); reflexivity. }
  destruct q as [|kv' q].
  - cbn [map String.concat length]. rewrite count_char_pair by assumption.
    destruct (Ascii.eqb "="%char c), (Ascii.eqb "&"%char c); reflexivity.
  - rewrite !map_cons, concat_cons_cons. rewrite !map_cons in IH.
    rewrite count_char_append, count_char_pair by assumption.
    rewrite (count_char_append c "&"), count_char_single, IH.
    cbn [length].
    destruct (Ascii.eqb "="%char c), (Ascii.eqb "&"%char c); lia.
Qed.

(** ** The redirect to the callback *)

Lemma before_char_append (c : ascii) (s1 s2 : string) :
  count_char c s1 = 0%nat ->
  before_char c (s1 ++ String c s2)%string = s1.
Proof.
  induction s1 as [|a s1 IH]; intros H.
  - simpl. now rewrite Ascii.eqb_refl.
  - rewrite count_char_cons in H. simpl.
    destruct (Ascii.eqb a c); [discriminate H|]. now rewrite IH.
Qed.


Lemma after_char_append (c : ascii) (s1 s2 : string) :
  count_char c s1 = 0%nat ->
  after_char c (s1 ++ String c s2)%string = Some s2.
Proof.
  induction s1 as [|a s1 IH]; intros H.
  - simpl. now rewrite Ascii.eqb_refl.
  - rewrite count_char_cons in H. simpl.
    destruct (Ascii.eqb a c); [discriminate H|]. now apply IH.
Qed.

Lemma split_on_none (c : ascii) (s : string) :
  count_char c s = 0%nat -> split_on c s = [s].
Proof.
  induction s as [|a s IH]; intros H; [reflexivity|].
  rewrite count_char_cons in H. cbn [split_on].
  destruct (Ascii.eqb a c); [discriminate H|]. now rewrite IH.
Qed.

Lemma split_on_append (c : ascii) (s1 s2 : string) :
  count_char c s1 = 0%nat ->
  split_on c (s1 ++ String c s2)%string = s1 :: split_on c s2.
Proof.
  induction s1 as [|a s1 IH]; intros H.
  - simpl. now rewrite Ascii.eqb_refl.
  - rewrite count_char_cons in H. simpl.
    destruct (Ascii.eqb a c); [discriminate H|]. now rewrite IH.
Qed.

Lemma unquote_plus_quote_char (a : ascii) (s : string) :
  unquote_plus (quote_plus (String a s)) = String a (unquote_plus (quote_plus s)).
Proof. destruct a as [[] [] [] [] [] [] [] []]; reflexivity. Qed.

Lemma unquote_plus_quote_plus (s : string) : unquote_plus (quote_plus s) = s.
Proof.
  induction s as [|a s IH]; [reflexivity|].
  now rewrite unquote_plus_quote_char, IH.
Qed.

Lemma parse_pair_quoted (k v : string) :
  parse_pair (quote_plus k ++ "=" ++ quote_plus v)%string = (k, v).
Proof.
  unfold parse_pair.
  change (quote_plus k ++ "=" ++ quote_plus v)%string
    with (quote_plus k ++ String "=" (quote_plus v))%string.
  assert (Hk : count_char "=" (quote_plus k) = 0%nat).
  { apply count_char_quote_plus; [reflexivity | discriminate | discriminate]. }
  rewrite before_char_append by exact Hk. rewrite after_char_append by exact Hk.
  change (default "" (Some (quote_plus v))) with (quote_plus v). now rewrite !unquote_plus_quote_plus.
Qed.

Lemma split_on_urlencode (q : list (string * string)) :
  q <> [] ->
  split_on "&" (urlencode q)
  = map (fun kv => (quote_plus (fst kv) ++ "=" ++ quote_plus (snd kv))%string) q.
Proof.
  unfold urlencode. induction q as [|kv q IH]; [congruence|]. intros _.
  assert (Hkv : count_char "&" (quote_plus (fst kv) ++ "=" ++ quote_plus (snd kv))%string
                = 0%nat).
  { rewrite count_char_pair by (reflexivity || discriminate). reflexivity. }
  destruct q as [|kv' q].
  - cbn [map String.concat]. now apply split_on_none.
  - rewrite !map_cons, concat_cons_cons. rewrite !map_cons in IH.
    change ("&" ++ ?x)%string with (String "&" x).
    rewrite split_on_append by exact Hkv. f_equal. now apply IH.
Qed.

Lemma parse_qsl_urlencode (q : list (string * string)) :
  parse_qsl (urlencode q) = q.
Proof.
  destruct q as [|kv q]; [reflexivity|].
  unfold parse_qsl. rewrite split_on_urlencode by discriminate.
  induction (kv :: q) as [|[k v] l IH]; [reflexivity|].
  rewrite map_cons. cbn [fst snd List.filter].
  assert (Hne : ((quote_plus k ++ "=" ++ quote_plus v) =? "")%string = false).
  { apply String.eqb_neq. destruct (quote_plus k); discriminate. }
  rewrite Hne. cbn [negb]. rewrite map_cons, parse_pair_quoted. now rewrite IH.
Qed.



(** A query string read back gives the pairs that were encoded, whatever
    their text. *)
Example parse_qsl_hostile_value :
  parse_qsl (urlencode [("id", "a&b=c#d?e f+g%h"); ("aiDocId", "")])
  = [("id", "a&b=c#d?e f+g%h"); ("aiDocId", "")].
Proof. apply parse_qsl_urlencode. Qed.




Example url_parameters_sample :
  url_parameters "https://example.org/done?id=M+1%2F2&aiStatus=not_detected&aiComponent=&aiConfidence=0.000000&aiDocId=#top"
  = [("id", "M 1/2"); ("aiStatus", "not_detected"); ("aiComponent", "");
     ("aiConfidence", "0.000000"); ("aiDocId", "")].
Proof. reflexivity. Qed.

(** ** The record between construction and response *)





(** The two paths of [verify_web] and the path of [api_verify] on the
    scenario, with a working store: the record on the heap (address 0)
    after the response. *)
Example redirect_leaves_record :
  heap (snd (verify_web sample_config sample_env callback_request world_store)) !! 0%nat
  = Some (verdict_of (Some (Detection "bolt" 0.81 "bolt_rust"))).
Proof. reflexivity. Qed.

Example json_adds_doc_id :
  heap (snd (verify_web sample_config sample_env sample_request world_store)) !! 0%nat
  = Some (<["docId" := JStr "doc0"]> (verdict_of (Some (Detection "bolt" 0.81 "bolt_rust"))))
  /\ heap (snd (api_verify sample_config sample_env sample_request world_store)) !! 0%nat
     = Some (<["docId" := JStr "doc0"]>
               (verdict_of (Some (Detection "bolt" 0.81 "bolt_rust")))).
Proof. split; reflexivity. Qed.

(** ** Sample runs *)

(** Both components are entered on a request that passes the checks. *)
Example trace_of_a_run :
  trace (snd (api_verify sample_config sample_env sample_request world_no_store))
  = [EvInference; EvPersistence].
Proof. reflexivity. Qed.

(** Without a store the caller still gets the full record. *)
Example api_verify_without_store :
  fst (api_verify sample_config sample_env sample_request world_no_store)
  = Ok (Json (<["docId" := JNull]> (verdict_of (Some (Detection "bolt" 0.81 "bolt_rust"))))
             200).
Proof. reflexivity. Qed.

Example format_6f_samples :
  map format_6f [0.81; 0; 1; 0.0000005; 0.0000015; 0.9999995; 0.1234565; (-1.5)]%float
  = ["0.810000"; "0.000000"; "1.000000"; "0.000000"; "0.000002"; "1.000000";
     "0.123456"; "-1.500000"].
Proof. reflexivity. Qed.

Example urlencode_sample :
  urlencode [("id", "M 1/2"); ("aiStatus", "not_detected"); ("aiComponent", "");
             ("aiConfidence", "0.000000"); ("aiDocId", "")]
  = "id=M+1%2F2&aiStatus=not_detected&aiComponent=&aiConfidence=0.000000&aiDocId=".
Proof. reflexivity. Qed.

(** * Further properties *)

(** ** The selector on arbitrary boxes *)

Lemma SFltb_not_nan_r (a b : spec_float) : SFltb a b = true -> b <> S754_nan.
Proof.
  unfold SFltb, SFcompare. destruct a, b; sf_signs.
Qed.

Lemma ltb_not_nan_r (a b : float) : (a <? b)%float = true -> not_nan b.
Proof. rewrite ltb_spec. apply SFltb_not_nan_r. Qed.

Lemma select_step_sound (r_names : option (gmap Z string))
    (visited : list box) (st st' : loop_state) (b : box) :
  select_step r_names st b = Ok st' ->
  loop_sound r_names visited st ->
  loop_sound r_names (visited ++ [b]) st'.
Proof.
  unfold select_step, loop_sound.
  destruct (resolve_class_name r_names (cls_id b)) as [label|e] eqn:Hlabel;
    [|discriminate].
  assert (Hcomp : component_of r_names b =
                  match parse_component (Some label) with
                  | Some comp => Some (comp, label)
                  | None => None
                  end) by (unfold component_of; now rewrite Hlabel).
  destruct st as [best best_conf]. simpl.
  assert (Hkeep : match best with
    | Some m =>
        (-1 <? best_conf)%float = true /\ best_conf = confidence m /\
        (exists b0, b0 ∈ visited /\
           component_of r_names b0 = Some (component m, class_name m) /\
           conf b0 = confidence m)
    | None =>
        best_conf = (-1)%float /\
        (forall b0, b0 ∈ visited ->
           component_of r_names b0 = None \/ (-1 <? conf b0)%float = false)
    end ->
    component_of r_names b = None \/ (best_conf <? conf b)%float = false ->
    match best with
    | Some m =>
        (-1 <? best_conf)%float = true /\ best_conf = confidence m /\
        (exists b0, b0 ∈ visited ++ [b] /\
           component_of r_names b0 = Some (component m, class_name m) /\
           conf b0 = confidence m)
    | None =>
        best_conf = (-1)%float /\
        (forall b0, b0 ∈ visited ++ [b] ->
           component_of r_names b0 = None \/ (-1 <? conf b0)%float = false)
    end).
  { intros Hinv Hb. destruct best as [m|].
    - destruct Hinv as (H1 & H2 & b0 & Hb0 & H3 & H4). repeat split; auto.
      exists b0. repeat split; auto. apply elem_of_app. now left.
    - destruct Hinv as (-> & Hall). split; auto.
      intros b0 Hb0. apply elem_of_app in Hb0 as [Hb0 | Hb0]; auto.
      apply list_elem_of_singleton in Hb0 as ->. exact Hb. }
  destruct (parse_component (Some label)) as [comp|] eqn:Hparse.
  - destruct (best_conf <? conf b)%float eqn:Hlt.
    + intros [= <-] Hinv. simpl. repeat split.
      * destruct best as [m|].
        -- destruct Hinv as (H1 & _). eapply ltb_trans; eauto.
        -- destruct Hinv as (-> & _). exact Hlt.
      * exists b. repeat split; auto.
        apply elem_of_app. right. apply list_elem_of_here.
    + intros [= <-] Hinv. simpl. apply Hkeep; auto.
  - intros [= <-] Hinv. simpl. apply Hkeep; auto.
Qed.

Lemma select_loop_sound (r_names : option (gmap Z string))
    (bs visited : list box) (st st' : loop_state) :
  select_loop r_names st bs = Ok st' ->
  loop_sound r_names visited st ->
  loop_sound r_names (visited ++ bs) st'.
Proof.
  revert visited st. induction bs as [|b bs IH]; intros visited st; simpl.
  - intros [= <-]. now rewrite app_nil_r.
  - destruct (select_step r_names st b) as [st1|e] eqn:Hstep; [|discriminate].
    intros Hloop Hinv.
    replace (visited ++ b :: bs) with ((visited ++ [b]) ++ bs)
      by now rewrite <- app_assoc.
    apply (IH _ st1); auto. eapply select_step_sound; eauto.
Qed.

Lemma loop_sound_init (r_names : option (gmap Z string)) :
  loop_sound r_names [] (None, (-1)%float).
Proof. split; [reflexivity | intros b Hb; inversion Hb]. Qed.

Lemma select_best_sound (r_names : option (gmap Z string)) (bs : list box)
    (best : option detection) :
  select_best r_names bs = Ok best ->
  exists best_conf, loop_sound r_names bs (best, best_conf).
Proof.
  unfold select_best.
  destruct (select_loop r_names (None, (-1)%float) bs) as [[b c]|e] eqn:Hloop;
    [|discriminate].
  intros [= <-]. exists c.
  apply (select_loop_sound _ _ [] _ _ Hloop (loop_sound_init r_names)).
Qed.

Lemma py_index_outcome {A : Type} (l : list A) (i : Z) :
  (- py_len l <= i < py_len l -> exists x, py_index l i = Ok x)
  /\ (i < - py_len l \/ py_len l <= i -> py_index l i = Raise IndexError).
Proof.
  unfold py_index, py_len. split.
  - intros Hi.
    set (j := if i <? 0 then i + Z.of_nat (length l) else i).
    assert (Hj : 0 <= j < Z.of_nat (length l)).
    { subst j. destruct (Z.ltb_spec i 0); lia. }
    destruct (Z.ltb_spec j 0) as [?|_]; [lia|].
    destruct (Z.leb_spec (Z.of_nat (length l)) j) as [?|_]; [lia|]. simpl.
    destruct (l !! Z.to_nat j) as [x|] eqn:E; [now exists x|].
    apply lookup_ge_None in E. lia.
  - intros Hi.
    set (j := if i <? 0 then i + Z.of_nat (length l) else i).
    assert (Hj : j < 0 \/ Z.of_nat (length l) <= j).
    { subst j. destruct (Z.ltb_spec i 0); lia. }
    destruct (Z.ltb_spec j 0) as [?|?]; [reflexivity|].
    destruct (Z.leb_spec (Z.of_nat (length l)) j) as [?|?]; [reflexivity | lia].
Qed.

Lemma resolve_class_name_raises (r_names : option (gmap Z string)) (c : Z) (e : exn) :
  resolve_class_name r_names c = Raise e <->
  e = IndexError /\ label_map_entry r_names c = None /\ c < - py_len CLASS_NAMES.
Proof.
  unfold resolve_class_name.
  destruct (label_map_entry r_names c) as [label|].
  { split; [discriminate | intros (_ & H & _); discriminate H]. }
  destruct (Z.ltb_spec c (py_len CLASS_NAMES)) as [Hlt|Hge].
  - destruct (Z.lt_ge_cases c (- py_len CLASS_NAMES)) as [Hlow|Hin].
    + rewrite (proj2 (py_index_outcome CLASS_NAMES c)) by now left.
      split; [intros [= <-]; auto | intros (-> & _); reflexivity].
    + destruct (proj1 (py_index_outcome CLASS_NAMES c)) as [x ->]; [lia|].
      split; [discriminate | intros (_ & _ & H); lia].
  - split; [discriminate | intros (_ & _ & H)]. unfold py_len in *. simpl in *. lia.
Qed.

Lemma select_step_raises (r_names : option (gmap Z string)) (st : loop_state)
    (b : box) (e : exn) :
  select_step r_names st b = Raise e <-> resolve_class_name r_names (cls_id b) = Raise e.
Proof.
  unfold select_step. destruct (resolve_class_name r_names (cls_id b)) as [label|e'].
  - destruct (parse_component (Some label)); [destruct (snd st <? conf b)%float|];
      split; discriminate.
  - split; intros [= ->]; reflexivity.
Qed.

Lemma select_loop_raises (r_names : option (gmap Z string)) (bs : list box)
    (st : loop_state) (e : exn) :
  select_loop r_names st bs = Raise e ->
  exists b, b ∈ bs /\ resolve_class_name r_names (cls_id b) = Raise e.
Proof.
  revert st. induction bs as [|b bs IH]; intros st; simpl; [discriminate|].
  destruct (select_step r_names st b) as [st1|e1] eqn:Hstep.
  - intros H. destruct (IH _ H) as (b0 & Hb0 & Hr). exists b0. split; auto.
    now apply list_elem_of_further.
  - intros [= ->]. exists b. split; [apply list_elem_of_here|].
    now apply select_step_raises in Hstep.
Qed.

Lemma select_loop_returns (r_names : option (gmap Z string)) (bs : list box)
    (st st' : loop_state) :
  select_loop r_names st bs = Ok st' ->
  forall b, b ∈ bs -> exists label, resolve_class_name r_names (cls_id b) = Ok label.
Proof.
  revert st. induction bs as [|b bs IH]; intros st; simpl.
  - intros _ b Hb. inversion Hb.
  - destruct (select_step r_names st b) as [st1|e1] eqn:Hstep; [|discriminate].
    intros Hloop b0 Hb0. apply elem_of_cons in Hb0 as [-> | Hb0].
    + destruct (resolve_class_name r_names (cls_id b)) as [label|e] eqn:Hr; eauto.
      apply select_step_raises with (st := st) in Hr. congruence.
    + eapply IH; eauto.
Qed.

Lemma select_loop_total (r_names : option (gmap Z string)) (bs : list box)
    (st : loop_state) :
  (forall b, b ∈ bs -> exists label, resolve_class_name r_names (cls_id b) = Ok label) ->
  exists st', select_loop r_names st bs = Ok st'.
Proof.
  intros Hall. destruct (select_loop r_names st bs) as [st'|e] eqn:Hloop; eauto.
  apply select_loop_raises in Hloop as (b & Hb & Hr).
  destruct (Hall b Hb) as [label Hl]. congruence.
Qed.

Lemma select_best_exception (r_names : option (gmap Z string))
    (bs : list box) (e : exn) :
  select_best r_names bs = Raise e -> e = IndexError.
Proof.
  unfold select_best.
  destruct (select_loop r_names (None, (-1)%float) bs) as [st|e'] eqn:Hloop;
    [discriminate|].
  intros [= ->]. apply select_loop_raises in Hloop as (b & _ & Hr).
  now apply resolve_class_name_raises in Hr as (-> & _).
Qed.

(** X1.  The loop returns none exactly when every box has a label and no
    box both has a component and a confidence above the floor -1.0: a
    matching box whose confidence is NaN, or at most -1.0, is passed
    over like a box without a component. *)
Theorem select_best_none_iff (r_names : option (gmap Z string)) (bs : list box) :
  select_best r_names bs = Ok None <->
  (forall b, b ∈ bs -> exists label, resolve_class_name r_names (cls_id b) = Ok label)
  /\ (forall b, b ∈ bs ->
        component_of r_names b = None \/ ((-1) <? conf b)%float = false).
Proof.
  split.
  - intros Hsel. split.
    + unfold select_best in Hsel.
      destruct (select_loop r_names (None, (-1)%float) bs) as [st|e] eqn:Hloop;
        [|discriminate].
      eapply select_loop_returns; eauto.
    + destruct (select_best_sound _ _ _ Hsel) as (c & _ & Hall). exact Hall.
  - intros [Hres Hall].
    destruct (select_loop_total r_names bs (None, (-1)%float) Hres) as [[best c] Hloop].
    assert (Hsel : select_best r_names bs = Ok best)
      by (unfold select_best; now rewrite Hloop).
    rewrite Hsel. destruct best as [m|]; [exfalso|reflexivity].
    destruct (select_best_sound _ _ _ Hsel) as (c' & Hfloor & Hc & b & Hb & Hcomp & Hconf).
    simpl in Hfloor, Hc. destruct (Hall b Hb) as [Hnone | Hlow]; [congruence|].
    rewrite Hconf, <- Hc in Hlow. congruence.
Qed.

(** X2.  Whatever the boxes, a match the loop returns repeats one of
    them: its component and label are that box's, its confidence is that
    box's confidence, which is above -1.0 and so not NaN; the component
    is one of the six names and occurs in the label. *)
Theorem select_best_match_sound (r_names : option (gmap Z string))
    (bs : list box) (m : detection) :
  select_best r_names bs = Ok (Some m) ->
  (exists b, b ∈ bs
             /\ resolve_class_name r_names (cls_id b) = Ok (class_name m)
             /\ parse_component (Some (class_name m)) = Some (component m)
             /\ conf b = confidence m)
  /\ ((-1) <? confidence m)%float = true
  /\ not_nan (confidence m)
  /\ component m ∈ COMPONENTS
  /\ occurs_in (component m) (class_name m).
Proof.
  intros Hsel.
  destruct (select_best_sound _ _ _ Hsel) as (c & Hfloor & Hc & b & Hb & Hcomp & Hconf).
  simpl in Hfloor, Hc. subst c.
  unfold component_of in Hcomp.
  destruct (resolve_class_name r_names (cls_id b)) as [label|e] eqn:Hlabel;
    [|discriminate].
  destruct (parse_component (Some label)) as [comp|] eqn:Hparse; [|discriminate].
  injection Hcomp as <- <-.
  split; [exists b; auto|]. split; [exact Hfloor|].
  split; [now apply ltb_not_nan_r in Hfloor|].
  rewrite parse_component_eq in Hparse. cbn [default] in Hparse.
  apply first_component_Some in Hparse as (before & after & Hsplit & Hin & _).
  split.
  - rewrite Hsplit. apply elem_of_app. right. apply list_elem_of_here.
  - now apply str_in_lower.
Qed.

Lemma select_best_match_sound_witness :
  (exists b, b ∈ [Box 0.81 16; Box 0.95 24; Box 0.60 0]
             /\ resolve_class_name None (cls_id b)
                = Ok (class_name (Detection "bolt" 0.81 "bolt_rust"))
             /\ parse_component (Some (class_name (Detection "bolt" 0.81 "bolt_rust")))
                = Some (component (Detection "bolt" 0.81 "bolt_rust"))
             /\ conf b = confidence (Detection "bolt" 0.81 "bolt_rust"))
  /\ ((-1) <? confidence (Detection "bolt" 0.81 "bolt_rust"))%float = true
  /\ not_nan (confidence (Detection "bolt" 0.81 "bolt_rust"))
  /\ component (Detection "bolt" 0.81 "bolt_rust") ∈ COMPONENTS
  /\ occurs_in (component (Detection "bolt" 0.81 "bolt_rust"))
               (class_name (Detection "bolt" 0.81 "bolt_rust")).
Proof.
  apply (select_best_match_sound None [Box 0.81 16; Box 0.95 24; Box 0.60 0]).
  reflexivity.
Defined.

(** A matching box with a NaN confidence is never selected. *)
Example select_nan : select_best None [Box nan 0] = Ok None.
Proof. reflexivity. Qed.

(** X3.  The loop raises exactly when some box has a class id that is
    absent from the label map and lies below minus the table's length;
    the exception is the IndexError of [CLASS_NAMES[cls_id]], whatever the
    other boxes are. *)
Theorem select_best_raises_iff (r_names : option (gmap Z string))
    (bs : list box) (e : exn) :
  select_best r_names bs = Raise e <->
  e = IndexError
  /\ exists b, b ∈ bs
               /\ label_map_entry r_names (cls_id b) = None
               /\ cls_id b < - py_len CLASS_NAMES.
Proof.
  unfold select_best. split.
  - destruct (select_loop r_names (None, (-1)%float) bs) as [st|e'] eqn:Hloop;
      [discriminate|].
    intros [= ->]. apply select_loop_raises in Hloop as (b & Hb & Hr).
    apply resolve_class_name_raises in Hr as (-> & Hmap & Hlow).
    split; [reflexivity|]. now exists b.
  - intros (-> & b & Hb & Hmap & Hlow).
    destruct (select_loop r_names (None, (-1)%float) bs) as [st|e'] eqn:Hloop.
    + destruct (select_loop_returns _ _ _ _ Hloop b Hb) as [label Hl].
      assert (Hr : resolve_class_name r_names (cls_id b) = Raise IndexError)
        by now apply resolve_class_name_raises.
      congruence.
    + apply select_loop_raises in Hloop as (b' & _ & Hr).
      apply resolve_class_name_raises in Hr as (-> & _). reflexivity.
Qed.

(** A good detection does not save the request from a later bad id. *)
Example select_raises_after_match :
  select_best None [Box 0.9 0; Box 0.5 (-26)] = Raise IndexError.
Proof. reflexivity. Qed.

Lemma select_loop_filter (r_names : option (gmap Z string)) (bs : list box)
    (st st' : loop_state) :
  select_loop r_names st bs = Ok st' ->
  select_loop r_names st (filter (fun b => has_component r_names b = true) bs) = Ok st'.
Proof.
  revert st. induction bs as [|b bs IH]; intros st; simpl; [auto|].
  destruct (select_step r_names st b) as [st1|e] eqn:Hstep; [|discriminate].
  intros Hloop. rewrite filter_cons.
  destruct (decide (has_component r_names b = true)) as [Hyes|Hno].
  - simpl. rewrite Hstep. now apply IH.
  - assert (st1 = st) as ->; [|now apply IH].
    revert Hstep Hno. unfold select_step, has_component, component_of.
    destruct (resolve_class_name r_names (cls_id b)) as [label|e]; [|discriminate].
    destruct (parse_component (Some label)); [congruence|]. now intros [= <-].
Qed.

(** X4.  When the loop returns, it returns the same on the boxes that
    have a component alone: boxes without one, such as qr_code, change
    neither the match nor the none. *)
Theorem select_best_ignores_unmatched (r_names : option (gmap Z string))
    (bs : list box) (best : option detection) :
  select_best r_names bs = Ok best ->
  select_best r_names (filter (fun b => has_component r_names b = true) bs) = Ok best.
Proof.
  unfold select_best.
  destruct (select_loop r_names (None, (-1)%float) bs) as [st|e] eqn:Hloop;
    [|discriminate].
  intros [= <-]. now rewrite (select_loop_filter _ _ _ _ Hloop).
Qed.

Lemma select_best_ignores_unmatched_witness :
  filter (fun b => has_component None b = true) [Box 0.81 16; Box 0.95 24; Box 0.60 0]
  = [Box 0.81 16; Box 0.60 0]
  /\ select_best None
       (filter (fun b => has_component None b = true) [Box 0.81 16; Box 0.95 24; Box 0.60 0])
     = Ok (Some (Detection "bolt" 0.81 "bolt_rust")).
Proof.
  split; [reflexivity|].
  apply (select_best_ignores_unmatched None [Box 0.81 16; Box 0.95 24; Box 0.60 0]).
  reflexivity.
Defined.

(** ** The static class table and the matcher *)

(** X5.  Without a label map, class id [i] with 0 <= i < 24 resolves to
    the label made of component [i mod 6] of (clip, liner, pad, sleeper,
    bolt, erc), an underscore, and condition [i / 6] of (ok, faulty,
    rust, missing), and the matcher finds exactly that component in it;
    class id 24 resolves to qr_code, in which it finds none. *)
Theorem class_table_matches (i : Z) :
  0 <= i < 24 ->
  (exists comp cond,
     TABLE_COMPONENTS !! Z.to_nat (i mod 6) = Some comp
     /\ TABLE_CONDITIONS !! Z.to_nat (i / 6) = Some cond
     /\ resolve_class_name None i = Ok (comp ++ "_" ++ cond)%string
     /\ parse_component (Some (comp ++ "_" ++ cond)%string) = Some comp)
  /\ resolve_class_name None 24 = Ok "qr_code"
  /\ parse_component (Some "qr_code") = None.
Proof.
  intros Hi. split; [|split; reflexivity].
  assert (Hn : i = Z.of_nat (Z.to_nat i)) by lia.
  assert (Hlt : (Z.to_nat i < 24)%nat) by lia.
  rewrite Hn. generalize dependent (Z.to_nat i). intros n _ Hlt.
  do 24 (destruct n as [|n]; [eexists _, _; repeat split; reflexivity|]).
  lia.
Qed.

Lemma class_table_matches_witness :
  (exists comp cond,
     TABLE_COMPONENTS !! Z.to_nat (16 mod 6) = Some comp
     /\ TABLE_CONDITIONS !! Z.to_nat (16 / 6) = Some cond
     /\ resolve_class_name None 16 = Ok (comp ++ "_" ++ cond)%string
     /\ parse_component (Some (comp ++ "_" ++ cond)%string) = Some comp)
  /\ resolve_class_name None 24 = Ok "qr_code"
  /\ parse_component (Some "qr_code") = None.
Proof. apply (class_table_matches 16). lia. Defined.

(** ** The handlers on every path *)

Lemma verify_web_cases (cfg : config) (env : collaborators) (req : request)
    (h : list pydict) (db : option firestore) (t : list event) :
  verify_web cfg env req (World h db t) =
  if no_file (files_image req) then (Ok (Text "No image" 400), World h db t)
  else
    match imdecode env (file_bytes (files_image req)) with
    | Raise e => (Raise e, World h db t)
    | Ok None => (Ok (Text "Failed to decode image" 400), World h db t)
    | Ok (Some img) =>
        match fst (run_pt_inference cfg env img (World h db t)) with
        | Raise e => (Raise e, World h db (t ++ [EvInference]))
        | Ok det =>
            match save_result_to_firestore cfg (length h)
                    (default "" (form_materialId req)) "verify_web"
                    (World (h ++ [verdict_of det]) db (t ++ [EvInference])) with
            | (Raise e, w2) => (Raise e, w2)
            | (Ok doc_id, w2) =>
                if (default "" (form_callback req) =? "")%string
                then (Ok (Json (<["docId" := of_option_str doc_id]> (verdict_of det)) 200),
                      World (<[length h := <["docId" := of_option_str doc_id]>
                                              (verdict_of det)]> (heap w2))
                            (db_fs w2) (trace w2))
                else (Ok (Redirect (default "" (form_callback req) ++ "?" ++
                                    urlencode (redirect_query
                                                 (default "" (form_materialId req))
                                                 det doc_id))%string 302),
                      w2)
            end
        end
    end.
Proof.
  destruct (no_file (files_image req)) eqn:Hfile.
  { unfold verify_web. now rewrite Hfile. }
  destruct (imdecode env (file_bytes (files_image req))) as [[img|]|edec] eqn:Himg.
  2,3: unfold verify_web; now rewrite Hfile, Himg.
  destruct (fst (run_pt_inference cfg env img (World h db t))) as [det|e] eqn:Hdet.
  - now rewrite (verify_web_run _ _ _ _ _ _ img det Hfile Himg Hdet).
  - unfold verify_web. rewrite Hfile, Himg.
    erewrite bind_raise; [reflexivity|].
    rewrite run_pt_inference_run. now rewrite Hdet.
Qed.

Lemma api_verify_cases (cfg : config) (env : collaborators) (req : request)
    (h : list pydict) (db : option firestore) (t : list event) :
  api_verify cfg env req (World h db t) =
  if (method req =? "OPTIONS")%string then (Ok (Text "" 204), World h db t)
  else if no_file (files_image req)
  then (Ok (Json (list_to_map [("ok", JBool false);
                               ("error", JStr "image is required")]) 400),
        World h db t)
  else
    match imdecode env (file_bytes (files_image req)) with
    | Raise e => (Raise e, World h db t)
    | Ok None => (Ok (Json (list_to_map [("ok", JBool false);
                                         ("error", JStr "failed to decode image")]) 400),
                  World h db t)
    | Ok (Some img) =>
        match fst (run_pt_inference cfg env img (World h db t)) with
        | Raise e => (Raise e, World h db (t ++ [EvInference]))
        | Ok det =>
            match save_result_to_firestore cfg (length h)
                    (default "" (form_materialId req)) "api_verify"
                    (World (h ++ [verdict_of det]) db (t ++ [EvInference])) with
            | (Raise e, w2) => (Raise e, w2)
            | (Ok doc_id, w2) =>
                (Ok (Json (<["docId" := of_option_str doc_id]> (verdict_of det)) 200),
                 World (<[length h := <["docId" := of_option_str doc_id]>
                                         (verdict_of det)]> (heap w2))
                       (db_fs w2) (trace w2))
            end
        end
    end.
Proof.
  destruct (method req =? "OPTIONS")%string eqn:Hopt.
  { unfold api_verify. now rewrite Hopt. }
  destruct (no_file (files_image req)) eqn:Hfile.
  { unfold api_verify. now rewrite Hopt, Hfile. }
  destruct (imdecode env (file_bytes (files_image req))) as [[img|]|edec] eqn:Himg.
  2,3: unfold api_verify; now rewrite Hopt, Hfile, Himg.
  destruct (fst (run_pt_inference cfg env img (World h db t))) as [det|e] eqn:Hdet.
  - now rewrite (api_verify_run _ _ _ _ _ _ img det Hopt Hfile Himg Hdet).
  - unfold api_verify. rewrite Hopt, Hfile, Himg.
    erewrite bind_raise; [reflexivity|].
    rewrite run_pt_inference_run. now rewrite Hdet.
Qed.

(** The outcome of inference, read off the model's answer. *)
Lemma run_pt_inference_outcome (cfg : config) (env : collaborators) (img : image)
    (w : world) :
  fst (run_pt_inference cfg env img w) =
  match predict env (cvtColor_BGR2RGB img) (CONF_THRESHOLD cfg) with
  | Raise e => Raise e
  | Ok [] => Raise IndexError
  | Ok (r :: _) => select_from_result r
  end.
Proof.
  unfold run_pt_inference, bind, log, lift. simpl.
  destruct (predict env _ _) as [[|r rest]|e]; try reflexivity.
Qed.

(** X6.  When inference raises on a request that passed the image
    checks, both handlers raise the same exception, no record has been
    built, and the store has not been touched: only the inference event
    was added.  Inference raises with the model's own exception, with
    IndexError when the model returns an empty result list, and otherwise
    only with the IndexError of the selection on the first result. *)
Theorem inference_failure_propagates (cfg : config) (env : collaborators)
    (req : request) (w : world) (img : image) (e : exn) :
  no_file (files_image req) = false ->
  imdecode env (file_bytes (files_image req)) = Ok (Some img) ->
  fst (run_pt_inference cfg env img w) = Raise e ->
  verify_web cfg env req w
  = (Raise e, World (heap w) (db_fs w) (trace w ++ [EvInference]))
  /\ ((method req =? "OPTIONS")%string = false ->
      api_verify cfg env req w
      = (Raise e, World (heap w) (db_fs w) (trace w ++ [EvInference])))
  /\ (predict env (cvtColor_BGR2RGB img) (CONF_THRESHOLD cfg) = Raise e
      \/ (predict env (cvtColor_BGR2RGB img) (CONF_THRESHOLD cfg) = Ok []
          /\ e = IndexError)
      \/ (exists r rest,
            predict env (cvtColor_BGR2RGB img) (CONF_THRESHOLD cfg) = Ok (r :: rest)
            /\ select_from_result r = Raise e /\ e = IndexError)).
Proof.
  intros Hfile Himg Hdet. destruct w as [h db t]. simpl heap; simpl db_fs; simpl trace.
  split; [|split].
  - now rewrite verify_web_cases, Hfile, Himg, Hdet.
  - intros Hopt. now rewrite api_verify_cases, Hopt, Hfile, Himg, Hdet.
  - rewrite run_pt_inference_outcome in Hdet.
    destruct (predict env _ _) as [[|r rest]|e'].
    + right. left. split; [reflexivity | congruence].
    + right. right. exists r, rest. split; [reflexivity|]. split; [exact Hdet|].
      unfold select_from_result in Hdet.
      destruct (boxes r) as [bs|]; [|discriminate].
      destruct (py_len bs =? 0); [discriminate|].
      now apply select_best_exception in Hdet.
    + left. congruence.
Qed.

Lemma inference_failure_propagates_witness :
  verify_web sample_config failing_model_env sample_request world_store
  = (Raise (CollaboratorError "model failure"),
     World (heap world_store) (db_fs world_store) (trace world_store ++ [EvInference]))
  /\ ((method sample_request =? "OPTIONS")%string = false ->
      api_verify sample_config failing_model_env sample_request world_store
      = (Raise (CollaboratorError "model failure"),
         World (heap world_store) (db_fs world_store)
               (trace world_store ++ [EvInference])))
  /\ (predict failing_model_env (cvtColor_BGR2RGB [[(0, 0, 0)]])
        (CONF_THRESHOLD sample_config)
      = Raise (CollaboratorError "model failure")
      \/ (predict failing_model_env (cvtColor_BGR2RGB [[(0, 0, 0)]])
            (CONF_THRESHOLD sample_config) = Ok []
          /\ CollaboratorError "model failure" = IndexError)
      \/ (exists r rest,
            predict failing_model_env (cvtColor_BGR2RGB [[(0, 0, 0)]])
              (CONF_THRESHOLD sample_config) = Ok (r :: rest)
            /\ select_from_result r = Raise (CollaboratorError "model failure")
            /\ CollaboratorError "model failure" = IndexError)).
Proof.
  apply (inference_failure_propagates sample_config failing_model_env sample_request
           world_store [[(0, 0, 0)]]); reflexivity.
Defined.

(** X7.  What follows the decode of an upload that gives no image.
    Where [cv2.imdecode] returns [None], [verify_web] answers 400 with
    the text "Failed to decode image" and [api_verify] answers 400 with a
    JSON body whose ok is false and whose error is "failed to decode
    image".  Where [cv2.imdecode] raises, as it does on an empty buffer,
    both handlers raise the same exception and answer nothing.  In both
    cases the world is left as it was: neither inference nor the adapter
    ran. *)
Theorem undecodable_image_rejected (cfg : config) (env : collaborators)
    (req : request) (w : world) :
  no_file (files_image req) = false ->
  (imdecode env (file_bytes (files_image req)) = Ok None ->
   verify_web cfg env req w = (Ok (Text "Failed to decode image" 400), w)
   /\ ((method req =? "OPTIONS")%string = false ->
       exists body,
         api_verify cfg env req w = (Ok (Json body 400), w)
         /\ body !! "ok" = Some (JBool false)
         /\ body !! "error" = Some (JStr "failed to decode image")
         /\ dom body = {["ok"; "error"]}))
  /\ (forall e,
        imdecode env (file_bytes (files_image req)) = Raise e ->
        verify_web cfg env req w = (Raise e, w)
        /\ ((method req =? "OPTIONS")%string = false ->
            api_verify cfg env req w = (Raise e, w))).
Proof.
  intros Hfile. destruct w as [h db t]. split.
  - intros Himg. split.
    + now rewrite verify_web_cases, Hfile, Himg.
    + intros Hopt. eexists. rewrite api_verify_cases, Hopt, Hfile, Himg.
      split; [reflexivity|]. split; [reflexivity|]. split; [reflexivity|].
      simpl. rewrite !dom_insert_L. set_solver.
  - intros e Himg. split.
    + now rewrite verify_web_cases, Hfile, Himg.
    + intros Hopt. now rewrite api_verify_cases, Hopt, Hfile, Himg.
Qed.

Lemma undecodable_image_rejected_witness :
  file_bytes (files_image sample_request) = photo_bytes
  /\ imdecode undecodable_env photo_bytes = Ok None
  /\ verify_web sample_config undecodable_env sample_request world_store
     = (Ok (Text "Failed to decode image" 400), world_store)
  /\ exists body,
       api_verify sample_config undecodable_env sample_request world_store
       = (Ok (Json body 400), world_store)
       /\ body !! "ok" = Some (JBool false)
       /\ body !! "error" = Some (JStr "failed to decode image")
       /\ dom body = {["ok"; "error"]}.
Proof.
  destruct (undecodable_image_rejected sample_config undecodable_env sample_request
              world_store eq_refl) as [Hnone _].
  destruct (Hnone eq_refl) as [Hweb Hapi].
  split; [reflexivity|]. split; [reflexivity|].
  split; [exact Hweb | exact (Hapi eq_refl)].
Defined.

(** An upload with a file name and no bytes. *)
Example empty_upload_raises :
  verify_web sample_config sample_env
    (Request "POST" (Some (Upload "photo.jpg" [])) None (Some "M-17")) world_store
  = (Raise empty_buffer_error, world_store)
  /\ api_verify sample_config sample_env
       (Request "POST" (Some (Upload "photo.jpg" [])) None (Some "M-17")) world_store
     = (Raise empty_buffer_error, world_store).
Proof. split; reflexivity. Qed.

Lemma verdict_of_dom (det : option detection) :
  dom (verdict_of det) = list_to_set RESULT_FIELDS.
Proof.
  destruct det; unfold verdict_of, RESULT_FIELDS; rewrite !dom_insert_L; simpl;
    set_solver.
Qed.

(** X8.  Every response [api_verify] returns is of one of three kinds,
    and each kind tells the path taken: 204 with an empty body exactly
    for OPTIONS; 400 with a body of ok false and an error message exactly
    when a non-OPTIONS request has no image file or one that does not
    decode, the world being untouched in both; and 200 with a body of the
    five keys ok (true), status, component, confidence and docId after
    inference and the adapter both ran. *)
Theorem api_verify_responses (cfg : config) (env : collaborators)
    (req : request) (w w' : world) (resp : response) :
  api_verify cfg env req w = (Ok resp, w') ->
  (resp = Text "" 204 /\ method req = "OPTIONS" /\ w' = w)
  \/ (exists msg,
        resp = Json (list_to_map [("ok", JBool false); ("error", JStr msg)]) 400
        /\ w' = w /\ method req <> "OPTIONS"
        /\ (no_file (files_image req) = true
            \/ imdecode env (file_bytes (files_image req)) = Ok None))
  \/ (exists body img,
        resp = Json body 200
        /\ method req <> "OPTIONS"
        /\ no_file (files_image req) = false
        /\ imdecode env (file_bytes (files_image req)) = Ok (Some img)
        /\ body !! "ok" = Some (JBool true)
        /\ dom body = list_to_set RESULT_FIELDS ∪ {["docId"]}
        /\ trace w' = trace w ++ [EvInference; EvPersistence]).
Proof.
  destruct w as [h db t]. rewrite api_verify_cases.
  destruct (String.eqb_spec (method req) "OPTIONS") as [Hopt|Hopt].
  { intros [= <- <-]. now left. }
  destruct (no_file (files_image req)) eqn:Hfile.
  { intros [= <- <-]. right. left. eexists. repeat split; auto. }
  destruct (imdecode env (file_bytes (files_image req))) as [[img|]|edec] eqn:Himg;
    [| |discriminate].
  2:{ intros [= <- <-]. right. left. eexists. repeat split; auto. }
  destruct (fst (run_pt_inference cfg env img (World h db t))) as [det|e] eqn:Hdet;
    [|discriminate].
  rewrite (save_result_to_firestore_run _ _ _ _ (verdict_of det)) by apply snoc_lookup.
  intros Hrun. right. right.
  exists (<["docId" := match db with
                       | Some fs => JStr (auto_id (minted fs))
                       | None => JNull
                       end]> (verdict_of det)), img.
  assert (Hbody : (<["docId" := match db with
                                | Some fs => JStr (auto_id (minted fs))
                                | None => JNull
                                end]> (verdict_of det)) !! "ok" = Some (JBool true)).
  { rewrite lookup_insert_ne by discriminate. now destruct det. }
  assert (Hdom : dom (<["docId" := match db with
                                | Some fs => JStr (auto_id (minted fs))
                                | None => JNull
                                end]> (verdict_of det))
                 = list_to_set RESULT_FIELDS ∪ {["docId"]}).
  { rewrite dom_insert_L, verdict_of_dom. set_solver. }
  destruct db as [fs|].
  - cbv zeta in Hrun. destruct (refusing fs); [discriminate Hrun|].
    injection Hrun as <- <-. simpl. rewrite <- app_assoc. repeat split; auto.
  - injection Hrun as <- <-. simpl. rewrite <- app_assoc. repeat split; auto.
Qed.

Lemma api_verify_responses_witness :
  (Json (<["docId" := JStr "doc0"]> (verdict_of (Some (Detection "bolt" 0.81 "bolt_rust"))))
        200 = Text "" 204
   /\ method sample_request = "OPTIONS"
   /\ snd (api_verify sample_config sample_env sample_request world_store) = world_store)
  \/ (exists msg,
        Json (<["docId" := JStr "doc0"]>
                (verdict_of (Some (Detection "bolt" 0.81 "bolt_rust")))) 200
        = Json (list_to_map [("ok", JBool false); ("error", JStr msg)]) 400
        /\ snd (api_verify sample_config sample_env sample_request world_store)
           = world_store
        /\ method sample_request <> "OPTIONS"
        /\ (no_file (files_image sample_request) = true
            \/ imdecode sample_env (file_bytes (files_image sample_request)) = Ok None))
  \/ (exists body img,
        Json (<["docId" := JStr "doc0"]>
                (verdict_of (Some (Detection "bolt" 0.81 "bolt_rust")))) 200
        = Json body 200
        /\ method sample_request <> "OPTIONS"
        /\ no_file (files_image sample_request) = false
        /\ imdecode sample_env (file_bytes (files_image sample_request)) = Ok (Some img)
        /\ body !! "ok" = Some (JBool true)
        /\ dom body = list_to_set RESULT_FIELDS ∪ {["docId"]}
        /\ trace (snd (api_verify sample_config sample_env sample_request world_store))
           = trace world_store ++ [EvInference; EvPersistence]).
Proof.
  apply (api_verify_responses sample_config sample_env sample_request world_store).
  vm_compute. reflexivity.
Defined.

(** ** The store across a request *)

(** What a run of the adapter on a stored record does to the handle. *)
Lemma save_result_to_firestore_store (cfg : config) (r : nat)
    (material_id source : string) (d : pydict)
    (h : list pydict) (db : option firestore) (t : list event) :
  h !! r = Some d ->
  db_fs (snd (save_result_to_firestore cfg r material_id source (World h db t))) =
  match db with
  | None => None
  | Some fs =>
      Some (Firestore
              (match refusing fs with
               | Some _ => documents fs
               | None =>
                   documents fs ++
                   [(FIRESTORE_COLLECTION cfg, auto_id (minted fs),
                     document_of cfg material_id source (auto_id (minted fs)) d)]
               end)
              (S (minted fs)) (refusing fs))
  end.
Proof.
  intros Hr. rewrite (save_result_to_firestore_run _ _ _ _ d) by exact Hr.
  destruct db as [fs|]; [|reflexivity]. cbv zeta.
  destruct (refusing fs) eqn:E; reflexivity.
Qed.

(** X9.  A request never configures, replaces or rewrites the store.
    Without a store there is none afterwards.  With one, whatever the
    request and its outcome, the documents afterwards are the documents
    before, followed by at most one new document in the configured
    collection under the id of the reference handed out; no earlier
    document is changed or removed.  This holds for both handlers. *)
Theorem store_grows_by_at_most_one (cfg : config) (env : collaborators)
    (req : request) (w : world) :
  match db_fs w with
  | None =>
      db_fs (snd (verify_web cfg env req w)) = None
      /\ db_fs (snd (api_verify cfg env req w)) = None
  | Some fs =>
      (exists fs', db_fs (snd (verify_web cfg env req w)) = Some fs'
                   /\ store_extends cfg fs fs')
      /\ (exists fs', db_fs (snd (api_verify cfg env req w)) = Some fs'
                      /\ store_extends cfg fs fs')
  end.
Proof.
  destruct w as [h db t]. simpl db_fs at 1.
  rewrite verify_web_cases, api_verify_cases.
  assert (Hsave : forall source det fs, db = Some fs ->
    exists fs',
      db_fs (snd (save_result_to_firestore cfg (length h)
                    (default "" (form_materialId req)) source
                    (World (h ++ [verdict_of det]) db (t ++ [EvInference]))))
      = Some fs'
      /\ store_extends cfg fs fs').
  { intros source det fs ->.
    rewrite (save_result_to_firestore_store _ _ _ _ (verdict_of det))
      by apply snoc_lookup.
    eexists. split; [reflexivity|]. split; [reflexivity|]. simpl.
    destruct (refusing fs) as [msg|] eqn:E.
    - right. left. repeat split. discriminate.
    - right. right. eexists. repeat split.
      unfold document_of. now rewrite lookup_insert_eq. }
  assert (Hnone : forall source det, db = None ->
    db_fs (snd (save_result_to_firestore cfg (length h)
                  (default "" (form_materialId req)) source
                  (World (h ++ [verdict_of det]) db (t ++ [EvInference])))) = None).
  { intros source det ->.
    now rewrite (save_result_to_firestore_store _ _ _ _ (verdict_of det))
      by apply snoc_lookup. }
  assert (Hweb : forall det,
    db_fs (snd (match save_result_to_firestore cfg (length h)
                        (default "" (form_materialId req)) "verify_web"
                        (World (h ++ [verdict_of det]) db (t ++ [EvInference])) with
                | (Raise e, w2) => (Raise e, w2)
                | (Ok doc_id, w2) =>
                    if (default "" (form_callback req) =? "")%string
                    then (Ok (Json (<["docId" := of_option_str doc_id]>
                                      (verdict_of det)) 200),
                          World (<[length h := <["docId" := of_option_str doc_id]>
                                                  (verdict_of det)]> (heap w2))
                                (db_fs w2) (trace w2))
                    else (Ok (Redirect (default "" (form_callback req) ++ "?" ++
                                        urlencode (redirect_query
                                                     (default "" (form_materialId req))
                                                     det doc_id))%string 302),
                          w2)
                end))
    = db_fs (snd (save_result_to_firestore cfg (length h)
                    (default "" (form_materialId req)) "verify_web"
                    (World (h ++ [verdict_of det]) db (t ++ [EvInference]))))).
  { intros det. destruct (save_result_to_firestore _ _ _ _ _) as [[doc_id|e] w2];
      [|reflexivity].
    destruct (default "" (form_callback req) =? "")%string; reflexivity. }
  assert (Hapi : forall det,
    db_fs (snd (match save_result_to_firestore cfg (length h)
                        (default "" (form_materialId req)) "api_verify"
                        (World (h ++ [verdict_of det]) db (t ++ [EvInference])) with
                | (Raise e, w2) => (Raise e, w2)
                | (Ok doc_id, w2) =>
                    (Ok (Json (<["docId" := of_option_str doc_id]> (verdict_of det)) 200),
                     World (<[length h := <["docId" := of_option_str doc_id]>
                                             (verdict_of det)]> (heap w2))
                           (db_fs w2) (trace w2))
                end))
    = db_fs (snd (save_result_to_firestore cfg (length h)
                    (default "" (form_materialId req)) "api_verify"
                    (World (h ++ [verdict_of det]) db (t ++ [EvInference]))))).
  { intros det. now destruct (save_result_to_firestore _ _ _ _ _) as [[doc_id|e] w2]. }
  assert (Hsame : forall fs, exists fs', Some fs = Some fs' /\ store_extends cfg fs fs').
  { intros fs. exists fs. split; [reflexivity|]. split; [reflexivity | now left]. }
  destruct db as [fs|]; split.
  - destruct (no_file (files_image req)); [apply Hsame|].
    destruct (imdecode env _) as [[img|]|edec]; [|apply Hsame|apply Hsame].
    destruct (fst (run_pt_inference cfg env img _)) as [det|e]; [|apply Hsame].
    rewrite Hweb. now apply Hsave.
  - destruct (method req =? "OPTIONS")%string; [apply Hsame|].
    destruct (no_file (files_image req)); [apply Hsame|].
    destruct (imdecode env _) as [[img|]|edec]; [|apply Hsame|apply Hsame].
    destruct (fst (run_pt_inference cfg env img _)) as [det|e]; [|apply Hsame].
    rewrite Hapi. now apply Hsave.
  - destruct (no_file (files_image req)); [reflexivity|].
    destruct (imdecode env _) as [[img|]|edec]; [|reflexivity|reflexivity].
    destruct (fst (run_pt_inference cfg env img _)) as [det|e]; [|reflexivity].
    rewrite Hweb. now apply Hnone.
  - destruct (method req =? "OPTIONS")%string; [reflexivity|].
    destruct (no_file (files_image req)); [reflexivity|].
    destruct (imdecode env _) as [[img|]|edec]; [|reflexivity|reflexivity].
    destruct (fst (run_pt_inference cfg env img _)) as [det|e]; [|reflexivity].
    rewrite Hapi. now apply Hnone.
Qed.

(** A second request appends to the document of the first. *)
Example second_document :
  option_map (fun fs => map (fun e => (fst (fst e), snd (fst e))) (documents fs))
    (db_fs (snd (api_verify sample_config sample_env sample_request world_with_document)))
  = Some [("ai_verifications", "doc0"); ("ai_verifications", "doc1")].
Proof. reflexivity. Qed.

(** X10.  With a store, a 200 JSON response and the stored document
    tell the same story: the request appended exactly one document, its
    id field is the docId of the response, its ok, status, component and
    confidence are those of the response, its source names the handler,
    and its materialId is the posted one (null when empty). *)
Theorem stored_document_matches_response (cfg : config) (env : collaborators)
    (req : request) (w w' : world) (fs : firestore) (source : string)
    (body : pydict) :
  db_fs w = Some fs ->
  (verify_web cfg env req w = (Ok (Json body 200), w') /\ source = "verify_web")
  \/ (api_verify cfg env req w = (Ok (Json body 200), w') /\ source = "api_verify") ->
  exists doc,
    db_fs w'
    = Some (Firestore
              (documents fs ++ [(FIRESTORE_COLLECTION cfg, auto_id (minted fs), doc)])
              (S (minted fs)) None)
    /\ body !! "docId" = Some (JStr (auto_id (minted fs)))
    /\ doc !! "id" = Some (JStr (auto_id (minted fs)))
    /\ (forall k, k ∈ RESULT_FIELDS -> doc !! k = body !! k)
    /\ doc !! "source" = Some (JStr source)
    /\ doc !! "materialId" = Some (str_or_none (default "" (form_materialId req))).
Proof.
  intros Hdb Hhandler.
  destruct w as [h db t]. simpl in Hdb. subst db.
  assert (Hdoc : forall det,
    let doc := document_of cfg (default "" (form_materialId req)) source
                 (auto_id (minted fs)) (verdict_of det) in
    doc !! "id" = Some (JStr (auto_id (minted fs)))
    /\ (forall k, k ∈ RESULT_FIELDS ->
          doc !! k = (<["docId" := JStr (auto_id (minted fs))]> (verdict_of det)) !! k)
    /\ doc !! "source" = Some (str_or_none source)
    /\ doc !! "materialId" = Some (str_or_none (default "" (form_materialId req)))).
  { intros det doc. subst doc. split; [|split; [|split]].
    - unfold document_of. now simplify_map_eq.
    - intros k Hk. rewrite document_of_lookup_other.
      + rewrite lookup_insert_ne; [reflexivity|].
        revert Hk. unfold RESULT_FIELDS. set_solver.
      + revert Hk. unfold RESULT_FIELDS, PROVENANCE_FIELDS. set_solver.
      + revert Hk. unfold RESULT_FIELDS. set_solver.
    - unfold document_of. now simplify_map_eq.
    - unfold document_of. now simplify_map_eq. }
  destruct Hhandler as [[Hrun ->] | [Hrun ->]].
  - rewrite verify_web_cases in Hrun.
    destruct (no_file (files_image req)); [discriminate Hrun|].
    destruct (imdecode env _) as [[img|]|edec]; [|discriminate Hrun|discriminate Hrun].
    destruct (fst (run_pt_inference cfg env img _)) as [det|e]; [|discriminate Hrun].
    rewrite (save_result_to_firestore_run _ _ _ _ (verdict_of det)) in Hrun
      by apply snoc_lookup.
    cbv zeta in Hrun. destruct (refusing fs) as [msg|] eqn:E; [discriminate Hrun|].
    destruct (default "" (form_callback req) =? "")%string; [|discriminate Hrun].
    injection Hrun as <- <-. eexists. split; [reflexivity|].
    split; [now rewrite lookup_insert_eq|]. apply (Hdoc det).
  - rewrite api_verify_cases in Hrun.
    destruct (method req =? "OPTIONS")%string; [discriminate Hrun|].
    destruct (no_file (files_image req)); [discriminate Hrun|].
    destruct (imdecode env _) as [[img|]|edec]; [|discriminate Hrun|discriminate Hrun].
    destruct (fst (run_pt_inference cfg env img _)) as [det|e]; [|discriminate Hrun].
    rewrite (save_result_to_firestore_run _ _ _ _ (verdict_of det)) in Hrun
      by apply snoc_lookup.
    cbv zeta in Hrun. destruct (refusing fs) as [msg|] eqn:E; [discriminate Hrun|].
    injection Hrun as <- <-. eexists. split; [reflexivity|].
    split; [now rewrite lookup_insert_eq|]. apply (Hdoc det).
Qed.

Lemma stored_document_matches_response_witness :
  exists doc,
    db_fs (snd (api_verify sample_config sample_env sample_request world_with_document))
    = Some (Firestore
              ([("ai_verifications", "doc0", verdict_of None)] ++
               [(FIRESTORE_COLLECTION sample_config, auto_id 1, doc)])
              2 None)
    /\ (<["docId" := JStr "doc1"]> (verdict_of (Some (Detection "bolt" 0.81 "bolt_rust"))))
         !! "docId" = Some (JStr (auto_id 1))
    /\ doc !! "id" = Some (JStr (auto_id 1))
    /\ (forall k, k ∈ RESULT_FIELDS ->
          doc !! k
          = (<["docId" := JStr "doc1"]>
               (verdict_of (Some (Detection "bolt" 0.81 "bolt_rust")))) !! k)
    /\ doc !! "source" = Some (JStr "api_verify")
    /\ doc !! "materialId"
       = Some (str_or_none (default "" (form_materialId sample_request))).
Proof.
  apply (stored_document_matches_response sample_config sample_env sample_request
           world_with_document
           (snd (api_verify sample_config sample_env sample_request world_with_document))
           (Firestore [("ai_verifications", "doc0", verdict_of None)] 1 None)
           "api_verify"
           (<["docId" := JStr "doc1"]>
              (verdict_of (Some (Detection "bolt" 0.81 "bolt_rust"))))).
  - reflexivity.
  - right. split; [vm_compute; reflexivity | reflexivity].
Defined.

Lemma snoc_snoc_lookup {A : Type} (h : list A) (v x : A) :
  ((h ++ [v]) ++ [x]) !! length h = Some v.
Proof.
  rewrite lookup_app_l by (rewrite length_app; simpl; lia). apply snoc_lookup.
Qed.

Lemma document_of_source (cfg : config) (material_id s1 s2 id : string) (d : pydict) :
  delete "source" (document_of cfg material_id s1 id d)
  = delete "source" (document_of cfg material_id s2 id d).
Proof.
  apply map_eq. intros k. destruct (decide (k = "source")) as [->|Hk].
  - now rewrite !lookup_delete_eq.
  - rewrite !lookup_delete_ne by congruence. unfold document_of.
    rewrite !lookup_insert. repeat case_decide; congruence.
Qed.

(** X11.  On a non-OPTIONS request whose image is present and decodes
    and which carries no callback, [verify_web] and [api_verify] are the
    same up to the name they store: same response or same exception,
    same record left on the heap, same events, and stores that differ at
    most in the source field of the new document. *)
Theorem handlers_agree_without_callback (cfg : config) (env : collaborators)
    (req : request) (w : world) (img : image) :
  (method req =? "OPTIONS")%string = false ->
  no_file (files_image req) = false ->
  imdecode env (file_bytes (files_image req)) = Ok (Some img) ->
  default "" (form_callback req) = "" ->
  let web := verify_web cfg env req w in
  let api := api_verify cfg env req w in
  fst web = fst api
  /\ heap (snd web) !! length (heap w) = heap (snd api) !! length (heap w)
  /\ trace (snd web) = trace (snd api)
  /\ option_map
       (fun fs => (map (fun e => (fst e, delete "source" (snd e))) (documents fs),
                   minted fs, refusing fs))
       (db_fs (snd web))
     = option_map
         (fun fs => (map (fun e => (fst e, delete "source" (snd e))) (documents fs),
                     minted fs, refusing fs))
         (db_fs (snd api)).
Proof.
  intros Hopt Hfile Himg Hcb. destruct w as [h db t]. cbv zeta.
  rewrite verify_web_cases, api_verify_cases, Hopt, Hfile, Himg, Hcb. simpl String.eqb.
  cbv iota.
  destruct (fst (run_pt_inference cfg env img (World h db t))) as [det|e];
    [|repeat split].
  rewrite !(save_result_to_firestore_run _ _ _ _ (verdict_of det)) by apply snoc_lookup.
  destruct db as [fs|]; [|repeat split].
  cbv zeta. destruct (refusing fs) as [msg|].
  - simpl. repeat split. now rewrite !snoc_snoc_lookup.
  - simpl. repeat split.
    + rewrite !list_lookup_insert_eq by (rewrite !length_app; simpl; lia). reflexivity.
    + rewrite !map_app. simpl.
      now rewrite (document_of_source cfg _ "verify_web" "api_verify").
Qed.

Lemma handlers_agree_without_callback_witness :
  fst (verify_web sample_config sample_env sample_request world_store)
  = fst (api_verify sample_config sample_env sample_request world_store)
  /\ heap (snd (verify_web sample_config sample_env sample_request world_store))
       !! length (heap world_store)
     = heap (snd (api_verify sample_config sample_env sample_request world_store))
         !! length (heap world_store)
  /\ trace (snd (verify_web sample_config sample_env sample_request world_store))
     = trace (snd (api_verify sample_config sample_env sample_request world_store))
  /\ option_map
       (fun fs => (map (fun e => (fst e, delete "source" (snd e))) (documents fs),
                   minted fs, refusing fs))
       (db_fs (snd (verify_web sample_config sample_env sample_request world_store)))
     = option_map
         (fun fs => (map (fun e => (fst e, delete "source" (snd e))) (documents fs),
                     minted fs, refusing fs))
         (db_fs (snd (api_verify sample_config sample_env sample_request world_store))).
Proof.
  apply (handlers_agree_without_callback sample_config sample_env sample_request
           world_store [[(0, 0, 0)]]); reflexivity.
Defined.

(** ** Start-up *)

Lemma ensure_app_world (plat : platform) (key_path : string) (p : process) :
  proc_world (snd (ensure_app plat key_path p)) = proc_world p
  /\ console (snd (ensure_app plat key_path p)) = console p
  /\ (fst (ensure_app plat key_path p) = Ok tt <->
      firebase_apps p = true
      \/ exists cred, certificate plat key_path = Ok cred
                      /\ initialize_app plat cred = Ok tt).
Proof.
  unfold ensure_app. destruct (firebase_apps p).
  { repeat split; auto. }
  destruct (certificate plat key_path) as [cred|e].
  - destruct (initialize_app plat cred) as [[]|e] eqn:Hinit; simpl.
    + repeat split; auto. intros _. right. now exists cred.
    + repeat split; try discriminate.
      intros [H | (cred' & [= <-] & H)]; congruence.
  - simpl. repeat split; try discriminate.
    intros [H | (cred' & H & _)]; discriminate.
Qed.

(** X12.  [init_firestore] never raises, whatever the platform does,
    and never touches the heap or the events; it prints exactly one
    line.  It sets [db_fs], to the client, exactly when the key path is
    non-empty and exists, an app exists or the certificate loads and the
    app initialises, and the client is obtained; in every other case
    [db_fs] stays what it was. *)
Theorem init_firestore_never_raises (plat : platform) (key_path : string)
    (p : process) :
  let p' := snd (init_firestore plat key_path p) in
  let comes_up :=
    key_path <> "" /\ path_exists plat key_path = true
    /\ (firebase_apps p = true
        \/ exists cred, certificate plat key_path = Ok cred
                        /\ initialize_app plat cred = Ok tt) in
  fst (init_firestore plat key_path p) = Ok tt
  /\ heap (proc_world p') = heap (proc_world p)
  /\ trace (proc_world p') = trace (proc_world p)
  /\ length (console p') = S (length (console p))
  /\ (forall fs, comes_up -> firestore_client plat = Ok fs ->
        db_fs (proc_world p') = Some fs /\ last (console p') = Some InitializedOK)
  /\ (~ comes_up \/ (exists e, firestore_client plat = Raise e) ->
        db_fs (proc_world p') = db_fs (proc_world p)
        /\ last (console p') <> Some InitializedOK).
Proof.
  cbv zeta. unfold init_firestore, init_firestore_try.
  destruct (ensure_app_world plat key_path p) as (Hw & Hc & Hok).
  assert (Hlen : forall (l : list console_line) x, length (l ++ [x]) = S (length l))
    by (intros l x; rewrite length_app; simpl; lia).
  destruct (String.eqb_spec key_path "") as [Hkey|Hkey].
  { simpl. split; [reflexivity|]. split; [reflexivity|]. split; [reflexivity|].
    split; [apply Hlen|]. split.
    - intros fs (H & _). congruence.
    - intros _. split; [reflexivity|]. rewrite last_snoc. discriminate. }
  destruct (path_exists plat key_path) eqn:Hpath; simpl.
  2:{ split; [reflexivity|]. split; [reflexivity|]. split; [reflexivity|].
      split; [apply Hlen|]. split.
      - intros fs (_ & H & _). congruence.
      - intros _. split; [reflexivity|]. rewrite last_snoc. discriminate. }
  destruct (ensure_app plat key_path p) as [[[]|e] p1] eqn:Happ; simpl in Hw, Hc, Hok.
  - destruct (firestore_client plat) as [fs|e] eqn:Hclient; simpl.
    + rewrite Hw, Hc. split; [reflexivity|]. split; [reflexivity|].
      split; [reflexivity|]. split; [apply Hlen|]. split.
      * intros fs' _ [= <-]. split; [reflexivity | apply last_snoc].
      * intros [Hno | [e He]]; [|discriminate].
        exfalso. apply Hno. split; [exact Hkey|]. split; [reflexivity|].
        now apply Hok.
    + rewrite Hw, Hc. split; [reflexivity|]. split; [reflexivity|].
      split; [reflexivity|]. split; [apply Hlen|]. split.
      * intros fs _ H. discriminate.
      * intros _. split; [reflexivity|]. rewrite last_snoc. discriminate.
  - simpl. rewrite Hw, Hc. split; [reflexivity|]. split; [reflexivity|].
    split; [reflexivity|]. split; [apply Hlen|]. split.
    + intros fs (_ & _ & H) _. apply Hok in H. discriminate.
    + intros _. split; [reflexivity|]. rewrite last_snoc. discriminate.
Qed.

Lemma init_firestore_fresh (plat : platform) (key_path : string) :
  exists p,
    init_firestore plat key_path (Process (World [] None []) false []) = (Ok tt, p)
    /\ heap (proc_world p) = []
    /\ trace (proc_world p) = []
    /\ (db_fs (proc_world p) = None
        \/ exists fs, firestore_client plat = Ok fs /\ db_fs (proc_world p) = Some fs)
    /\ (key_path = "" \/ path_exists plat key_path = false
        \/ (exists e, certificate plat key_path = Raise e)
        \/ (exists cred e, certificate plat key_path = Ok cred
                           /\ initialize_app plat cred = Raise e)
        \/ (exists e, firestore_client plat = Raise e) ->
        db_fs (proc_world p) = None).
Proof.
  unfold init_firestore, init_firestore_try, ensure_app. simpl firebase_apps.
  destruct (String.eqb_spec key_path "") as [Hkey|Hkey]; simpl.
  { eexists. split; [reflexivity|]. simpl. auto. }
  destruct (path_exists plat key_path) eqn:Hpath; simpl.
  2:{ eexists. split; [reflexivity|]. simpl. auto. }
  destruct (certificate plat key_path) as [cred|e] eqn:Hcert; simpl.
  2:{ eexists. split; [reflexivity|]. simpl. auto. }
  destruct (initialize_app plat cred) as [[]|e] eqn:Hinit; simpl.
  2:{ eexists. split; [reflexivity|]. simpl. auto. }
  destruct (firestore_client plat) as [fs|e] eqn:Hclient; simpl.
  2:{ eexists. split; [reflexivity|]. simpl. auto. }
  eexists. split; [reflexivity|]. simpl. split; [reflexivity|]. split; [reflexivity|].
  split; [right; now exists fs|].
  intros [H | [H | [[e H] | [(c & e & H1 & H2) | [e H]]]]]; congruence.
Qed.

(** X13.  Lines 66-110 of the module body, entered with the
    configuration that lines 16-31 have read (a CONF_THRESHOLD that
    [float] rejects ends the body before, at line 23, and is not
    covered here): from there start-up fails for the model alone.  It
    ends in FileNotFoundError exactly when the model path does not
    exist, and in another exception exactly when the path exists and
    loading the model raises that exception.  When the model loads the
    process serves, whatever happens to Firestore: with an empty heap,
    no events, the loaded model as collaborator, and a [db_fs] that is
    either none or the client the platform returned. *)
Theorem start_depends_on_model_only (plat : platform) (cfg : config)
    (key_path : string) :
  (forall msg,
     start plat cfg key_path = FileNotFound msg <->
     path_exists plat (PT_MODEL_PATH cfg) = false
     /\ msg = ("PT model not found at: " ++ PT_MODEL_PATH cfg)%string)
  /\ (forall e,
        start plat cfg key_path = StartupError e <->
        path_exists plat (PT_MODEL_PATH cfg) = true
        /\ load_model plat (PT_MODEL_PATH cfg) = Raise e)
  /\ (forall model,
        path_exists plat (PT_MODEL_PATH cfg) = true ->
        load_model plat (PT_MODEL_PATH cfg) = Ok model ->
        exists p,
          start plat cfg key_path = Serving (Collaborators (cv2_imdecode plat) model) p
          /\ heap (proc_world p) = []
          /\ trace (proc_world p) = []
          /\ (db_fs (proc_world p) = None
              \/ exists fs, firestore_client plat = Ok fs
                            /\ db_fs (proc_world p) = Some fs)).
Proof.
  unfold start.
  destruct (init_firestore_fresh plat key_path) as (p & Hinit & Hh & Ht & Hdb & _).
  rewrite Hinit.
  destruct (path_exists plat (PT_MODEL_PATH cfg)); simpl.
  - destruct (load_model plat (PT_MODEL_PATH cfg)) as [model|e].
    + split; [|split].
      * intros msg. split; [discriminate | intros [H _]; discriminate H].
      * intros e. split; [discriminate | intros [_ H]; discriminate H].
      * intros model' _ [= <-]. exists p. auto.
    + split; [|split].
      * intros msg. split; [discriminate | intros [H _]; discriminate H].
      * intros e'. split; [intros [= <-]; auto | intros [_ [= <-]]; reflexivity].
      * intros model _ H. discriminate H.
  - split; [|split].
    + intros msg. split; [intros [= <-]; auto | intros [_ ->]; reflexivity].
    + intros e. split; [discriminate | intros [H _]; discriminate H].
    + intros model H. discriminate H.
Qed.

Example start_without_model :
  start (Platform (fun _ => false) (fun _ => Raise IndexError) decode_none
                  (fun _ => Raise IndexError) (fun _ => Raise IndexError)
                  (Raise IndexError))
        sample_config "serviceAccountKey.json"
  = FileNotFound "PT model not found at: /srv/verify/best.pt".
Proof. reflexivity. Qed.

Example start_complete :
  start platform_complete sample_config "serviceAccountKey.json"
  = Serving (Collaborators (cv2_imdecode platform_complete)
                           (fun _ _ => Ok [scenario_result]))
            (Process world_store true [InitializedOK]).
Proof. reflexivity. Qed.

(** ** Health *)

Lemma save_result_to_firestore_some (cfg : config) (r : nat)
    (material_id source : string) (w : world) (fs : firestore) :
  db_fs w = Some fs ->
  fst (save_result_to_firestore cfg r material_id source w) <> Ok None.
Proof.
  destruct w as [h db t]. simpl. intros ->.
  destruct (h !! r) as [d|] eqn:Hr.
  - rewrite (save_result_to_firestore_run _ _ _ _ d) by exact Hr.
    cbv zeta. destruct (refusing fs); discriminate.
  - unfold save_result_to_firestore, bind, log, get_db, dict_copy, bind, read_dict.
    simpl. rewrite Hr. discriminate.
Qed.

(** X14.  [/health] answers 200 with the five keys ok, ptModelPath,
    threshold, firestore and collection, and leaves the world as it was.
    Its firestore flag is false exactly when the adapter, called now on
    any record, would skip persistence and return none; it is true
    exactly when [db_fs] is set. *)
Theorem health_reports_persistence (cfg : config) (w : world) (r : nat)
    (material_id source : string) :
  exists body,
    health cfg w = (Ok (Json body 200), w)
    /\ dom body = {["ok"; "ptModelPath"; "threshold"; "firestore"; "collection"]}
    /\ body !! "ok" = Some (JBool true)
    /\ body !! "ptModelPath" = Some (JStr (PT_MODEL_PATH cfg))
    /\ body !! "threshold" = Some (JNum (CONF_THRESHOLD cfg))
    /\ body !! "collection" = Some (JStr (FIRESTORE_COLLECTION cfg))
    /\ (body !! "firestore" = Some (JBool false) <->
        fst (save_result_to_firestore cfg r material_id source w) = Ok None)
    /\ (body !! "firestore" = Some (JBool true) <-> db_fs w <> None).
Proof.
  destruct w as [h db t]. eexists. split; [reflexivity|].
  split; [simpl; rewrite !dom_insert_L; set_solver|].
  do 4 (split; [reflexivity|]).
  assert (Hflag : forall b,
    (list_to_map [("ok", JBool true); ("ptModelPath", JStr (PT_MODEL_PATH cfg));
                  ("threshold", JNum (CONF_THRESHOLD cfg));
                  ("firestore", JBool (db_truthy db));
                  ("collection", JStr (FIRESTORE_COLLECTION cfg))] : pydict)
      !! "firestore" = Some (JBool b) <-> db_truthy db = b).
  { intros b. simpl. rewrite !lookup_insert_ne by discriminate.
    rewrite lookup_insert_eq. split; [now intros [= ->] | now intros ->]. }
  split.
  - rewrite Hflag. destruct db as [fs|]; simpl.
    + split; [discriminate|]. intros H.
      now apply (save_result_to_firestore_some cfg r material_id source
                   (World h (Some fs) t) fs) in H.
    + split; reflexivity.
  - rewrite Hflag. destruct db as [fs|]; simpl; split; congruence.
Qed.

(** ** Degraded mode *)

(** X15.  When the model loads but Firestore does not come up (empty or
    missing key path, a certificate or app initialisation that raises, or
    a client that cannot be obtained), the process serves without a
    store: [/health] reports firestore false, and every request whose
    image is present and decodes and whose inference returns gets its
    full record, with a null docId from [api_verify] and from
    [verify_web] without callback, and with an empty aiDocId in the
    redirect. *)
Theorem degraded_start_still_verifies (plat : platform) (cfg : config)
    (key_path : string)
    (model : image -> float -> result (list yolo_result)) :
  path_exists plat (PT_MODEL_PATH cfg) = true ->
  load_model plat (PT_MODEL_PATH cfg) = Ok model ->
  (key_path = "" \/ path_exists plat key_path = false
   \/ (exists e, certificate plat key_path = Raise e)
   \/ (exists cred e, certificate plat key_path = Ok cred
                      /\ initialize_app plat cred = Raise e)
   \/ (exists e, firestore_client plat = Raise e)) ->
  exists env p,
    start plat cfg key_path = Serving env p
    /\ (exists body, fst (health cfg (proc_world p)) = Ok (Json body 200)
                     /\ body !! "firestore" = Some (JBool false))
    /\ forall req img det,
         (method req =? "OPTIONS")%string = false ->
         no_file (files_image req) = false ->
         imdecode env (file_bytes (files_image req)) = Ok (Some img) ->
         fst (run_pt_inference cfg env img (proc_world p)) = Ok det ->
         fst (api_verify cfg env req (proc_world p))
         = Ok (Json (<["docId" := JNull]> (verdict_of det)) 200)
         /\ fst (verify_web cfg env req (proc_world p))
            = Ok (if (default "" (form_callback req) =? "")%string
                  then Json (<["docId" := JNull]> (verdict_of det)) 200
                  else Redirect
                         (default "" (form_callback req) ++ "?" ++
                          urlencode (redirect_query (default "" (form_materialId req))
                                                    det None))%string 302).
Proof.
  intros Hpath Hload Hfail. unfold start. rewrite Hpath, Hload. simpl negb. cbv iota.
  destruct (init_firestore_fresh plat key_path) as (p & Hinit & Hh & Ht & _ & Hnone).
  rewrite Hinit. specialize (Hnone Hfail).
  exists (Collaborators (cv2_imdecode plat) model), p.
  split; [reflexivity|].
  destruct p as [[h db t] apps out]. simpl in Hh, Ht, Hnone. subst h t db.
  split.
  { eexists. split; reflexivity. }
  intros req img det Hopt Hfile Himg Hdet. simpl proc_world in *.
  rewrite api_verify_cases, verify_web_cases, Hopt, Hfile, Himg, Hdet.
  rewrite !(save_result_to_firestore_run _ _ _ _ (verdict_of det)) by apply snoc_lookup.
  split; [reflexivity|].
  destruct (default "" (form_callback req) =? "")%string; reflexivity.
Qed.

Lemma degraded_start_still_verifies_witness :
  exists env p,
    start platform_without_key sample_config "serviceAccountKey.json" = Serving env p
    /\ (exists body, fst (health sample_config (proc_world p)) = Ok (Json body 200)
                     /\ body !! "firestore" = Some (JBool false))
    /\ forall req img det,
         (method req =? "OPTIONS")%string = false ->
         no_file (files_image req) = false ->
         imdecode env (file_bytes (files_image req)) = Ok (Some img) ->
         fst (run_pt_inference sample_config env img (proc_world p)) = Ok det ->
         fst (api_verify sample_config env req (proc_world p))
         = Ok (Json (<["docId" := JNull]> (verdict_of det)) 200)
         /\ fst (verify_web sample_config env req (proc_world p))
            = Ok (if (default "" (form_callback req) =? "")%string
                  then Json (<["docId" := JNull]> (verdict_of det)) 200
                  else Redirect
                         (default "" (form_callback req) ++ "?" ++
                          urlencode (redirect_query (default "" (form_materialId req))
                                                    det None))%string 302).
Proof.
  apply (degraded_start_still_verifies platform_without_key sample_config
           "serviceAccountKey.json" (fun _ _ => Ok [scenario_result]));
    [reflexivity | reflexivity | right; left; reflexivity].
Defined.

(** ** The query string *)

(** X16.  Whatever the keys and values hold, [urlencode] of a list of
    pairs has one [=] per pair and one [&] between consecutive pairs, and
    no other character outside the letters, digits, [_.-~], [+] and [%]:
    a value cannot add a parameter or end the query.  The query of the
    redirect therefore always has exactly five [=] and four [&]. *)
Theorem urlencode_separators (q : list (string * string)) :
  count_char "=" (urlencode q) = length q
  /\ count_char "&" (urlencode q) = (length q - 1)%nat
  /\ (forall c, url_safe c = false ->
        c <> "+"%char -> c <> "%"%char -> c <> "="%char -> c <> "&"%char ->
        count_char c (urlencode q) = 0%nat)
  /\ (forall material_id det doc_id,
        count_char "=" (urlencode (redirect_query material_id det doc_id)) = 5%nat
        /\ count_char "&" (urlencode (redirect_query material_id det doc_id)) = 4%nat).
Proof.
  assert (Heq : count_char "=" (urlencode q) = length q).
  { rewrite count_char_urlencode by (reflexivity || discriminate).
    simpl. lia. }
  assert (Hamp : count_char "&" (urlencode q) = (length q - 1)%nat).
  { rewrite count_char_urlencode by (reflexivity || discriminate).
    simpl. lia. }
  split; [exact Heq|]. split; [exact Hamp|]. split.
  - intros c Hsafe Hplus Hpct Heqc Hampc.
    rewrite count_char_urlencode by assumption.
    destruct (Ascii.eqb_spec "="%char c) as [<-|_]; [congruence|].
    destruct (Ascii.eqb_spec "&"%char c) as [<-|_]; [congruence|]. reflexivity.
  - intros material_id det doc_id.
    rewrite !count_char_urlencode by (reflexivity || discriminate).
    split; reflexivity.
Qed.

(** A material id full of separators stays one value. *)
Example urlencode_hostile_value :
  urlencode (redirect_query "x&aiStatus=verified#" None None)
  = "id=x%26aiStatus%3Dverified%23&aiStatus=not_detected&aiComponent=&aiConfidence=0.000000&aiDocId=".
Proof. reflexivity. Qed.

(** ** The matcher on longer labels *)

Lemma string_append_assoc (a b c : string) :
  ((a ++ b) ++ c)%string = (a ++ (b ++ c))%string.
Proof.
  induction a as [|x a IH]; [reflexivity|].
  change (String x ((a ++ b) ++ c) = String x (a ++ (b ++ c)))%string.
  now f_equal.
Qed.

Lemma occurs_in_context (c s pre post : string) :
  occurs_in c s -> occurs_in c (pre ++ s ++ post)%string.
Proof.
  intros (a & b & H). exists (lower pre ++ a)%string, (b ++ lower post)%string.
  rewrite !lower_append, H. now rewrite !string_append_assoc.
Qed.

(** X17.  Text around a label never loses a match: when the matcher
    finds a component in a label, it finds one in every string that
    contains the label, namely the same component or one that comes
    earlier in (erc, liner, sleeper, clip, pad, bolt). *)
Theorem parse_component_in_context (label pre post c : string) :
  parse_component (Some label) = Some c ->
  exists c' before after,
    parse_component (Some (pre ++ label ++ post)%string) = Some c'
    /\ COMPONENTS = before ++ c' :: after
    /\ (c' = c \/ c ∈ after).
Proof.
  intros Hparse.
  change (first_component COMPONENTS (lower label) = Some c) in Hparse.
  change (parse_component (Some (pre ++ label ++ post)%string))
    with (first_component COMPONENTS (lower (pre ++ label ++ post)%string)).
  apply first_component_Some in Hparse as (b0 & a0 & Hsplit0 & Hin & _).
  apply str_in_lower in Hin.
  pose proof (occurs_in_context c label pre post Hin) as Hbig.
  apply str_in_lower in Hbig.
  assert (Hc : c ∈ COMPONENTS).
  { rewrite Hsplit0. apply elem_of_app. right. apply list_elem_of_here. }
  destruct (first_component COMPONENTS (lower (pre ++ label ++ post)))
    as [c'|] eqn:Hfirst.
  - pose proof Hfirst as Hspec.
    apply first_component_Some in Hspec as (before & after & Hsplit & _ & Hbefore).
    exists c', before, after. split; [reflexivity|]. split; [exact Hsplit|].
    rewrite Hsplit in Hc. apply elem_of_app in Hc as [Hc | Hc].
    + rewrite (Hbefore c Hc) in Hbig. discriminate.
    + apply elem_of_cons in Hc as [-> | Hc]; auto.
  - rewrite first_component_None in Hfirst. rewrite (Hfirst c Hc) in Hbig.
    discriminate.
Qed.

Lemma parse_component_in_context_witness :
  exists c' before after,
    parse_component (Some ("track/" ++ "Bolt_rust" ++ "-v2")%string) = Some c'
    /\ COMPONENTS = before ++ c' :: after
    /\ (c' = "bolt" \/ "bolt" ∈ after).
Proof.
  apply (parse_component_in_context "Bolt_rust" "track/" "-v2" "bolt"). reflexivity.
Defined.

(** The earlier entry can take over: "clipboard" has clip, and "erc" in
    front of it wins. *)
Example parse_component_takeover :
  parse_component (Some "clipboard") = Some "clip"
  /\ parse_component (Some ("erc_" ++ "clipboard")%string) = Some "erc".
Proof. split; reflexivity. Qed.

(** ** Isolation of requests *)

Lemma save_result_to_firestore_world (cfg : config) (r : nat)
    (material_id source : string) (d : pydict)
    (h : list pydict) (db : option firestore) (t : list event) :
  h !! r = Some d ->
  exists new,
    heap (snd (save_result_to_firestore cfg r material_id source (World h db t)))
    = h ++ new
    /\ (length new <= 1)%nat
    /\ trace (snd (save_result_to_firestore cfg r material_id source (World h db t)))
       = t ++ [EvPersistence].
Proof.
  intros Hr. rewrite (save_result_to_firestore_run _ _ _ _ d) by exact Hr.
  destruct db as [fs|].
  - cbv zeta. destruct (refusing fs); eexists; repeat split; simpl; lia.
  - exists []. simpl. rewrite app_nil_r. repeat split. lia.
Qed.

(** X18.  A request leaves every dict object that existed before it as
    it was: whatever the request and its outcome, the heap afterwards is
    the heap before followed by at most two new objects (the record and
    the adapter's copy).  The events grow by nothing, by the inference
    event, or by the inference event and then the persistence event: the
    adapter is never entered unless inference was entered first. *)
Theorem requests_are_isolated (cfg : config) (env : collaborators)
    (req : request) (w : world) (web : bool) :
  let w' := snd (if web then verify_web cfg env req w else api_verify cfg env req w) in
  (exists new, heap w' = heap w ++ new /\ (length new <= 2)%nat)
  /\ (trace w' = trace w
      \/ trace w' = trace w ++ [EvInference]
      \/ trace w' = trace w ++ [EvInference; EvPersistence]).
Proof.
  destruct w as [h db t]. cbv zeta. simpl heap at 2; simpl trace at 2 4 6.
  assert (Hstay : (exists new : list pydict, h = h ++ new /\ (length new <= 2)%nat)
                  /\ (t = t \/ t = t ++ [EvInference]
                      \/ t = t ++ [EvInference; EvPersistence])).
  { split; [exists []; rewrite app_nil_r; split; [reflexivity | simpl; lia] | now left]. }
  assert (Hinf : (exists new : list pydict, h = h ++ new /\ (length new <= 2)%nat)
                 /\ (t ++ [EvInference] = t \/ t ++ [EvInference] = t ++ [EvInference]
                     \/ t ++ [EvInference] = t ++ [EvInference; EvPersistence])).
  { split; [exists []; rewrite app_nil_r; split; [reflexivity | simpl; lia]|].
    right. now left. }
  assert (Hsave : forall source det (k : option string -> world -> result response * world),
    (forall doc_id w2,
       heap (snd (k doc_id w2)) = heap w2
       \/ heap (snd (k doc_id w2))
          = <[length h := <["docId" := of_option_str doc_id]> (verdict_of det)]> (heap w2)) ->
    (forall doc_id w2, trace (snd (k doc_id w2)) = trace w2) ->
    let out := match save_result_to_firestore cfg (length h)
                       (default "" (form_materialId req)) source
                       (World (h ++ [verdict_of det]) db (t ++ [EvInference])) with
               | (Raise e, w2) => (Raise e, w2)
               | (Ok doc_id, w2) => k doc_id w2
               end in
    (exists new, heap (snd out) = h ++ new /\ (length new <= 2)%nat)
    /\ (trace (snd out) = t \/ trace (snd out) = t ++ [EvInference]
        \/ trace (snd out) = t ++ [EvInference; EvPersistence])).
  { intros source det k Hheap Htrace. cbv zeta.
    destruct (save_result_to_firestore_world cfg (length h)
                (default "" (form_materialId req)) source (verdict_of det)
                (h ++ [verdict_of det]) db (t ++ [EvInference]) (snoc_lookup h _))
      as (new & Hnew & Hlen & Htr).
    destruct (save_result_to_firestore _ _ _ _ _) as [[doc_id|e] w2]; simpl in Hnew, Htr.
    - rewrite Htrace, Htr, <- app_assoc. split; [|right; right; reflexivity].
      destruct (Hheap doc_id w2) as [-> | ->]; rewrite Hnew, <- app_assoc.
      + eexists. split; [reflexivity|]. rewrite length_app. simpl. lia.
      + rewrite insert_app_r_alt by lia. rewrite Nat.sub_diag. simpl.
        eexists. split; [reflexivity|]. simpl. lia.
    - simpl. rewrite Htr, Hnew, <- !app_assoc. split; [|right; right; reflexivity].
      eexists. split; [reflexivity|]. rewrite length_app. simpl. lia. }
  destruct web.
  - rewrite verify_web_cases.
    destruct (no_file (files_image req)); [exact Hstay|].
    destruct (imdecode env _) as [[img|]|edec]; [|exact Hstay|exact Hstay].
    destruct (fst (run_pt_inference cfg env img _)) as [det|e]; [|exact Hinf].
    apply (Hsave "verify_web" det
             (fun doc_id w2 =>
                if (default "" (form_callback req) =? "")%string
                then (Ok (Json (<["docId" := of_option_str doc_id]> (verdict_of det)) 200),
                      World (<[length h := <["docId" := of_option_str doc_id]>
                                              (verdict_of det)]> (heap w2))
                            (db_fs w2) (trace w2))
                else (Ok (Redirect (default "" (form_callback req) ++ "?" ++
                                    urlencode (redirect_query
                                                 (default "" (form_materialId req))
                                                 det doc_id))%string 302),
                      w2))).
    + intros doc_id w2. destruct (default "" (form_callback req) =? "")%string; auto.
    + intros doc_id w2. now destruct (default "" (form_callback req) =? "")%string.
  - rewrite api_verify_cases.
    destruct (method req =? "OPTIONS")%string; [exact Hstay|].
    destruct (no_file (files_image req)); [exact Hstay|].
    destruct (imdecode env _) as [[img|]|edec]; [|exact Hstay|exact Hstay].
    destruct (fst (run_pt_inference cfg env img _)) as [det|e]; [|exact Hinf].
    apply (Hsave "api_verify" det
             (fun doc_id w2 =>
                (Ok (Json (<["docId" := of_option_str doc_id]> (verdict_of det)) 200),
                 World (<[length h := <["docId" := of_option_str doc_id]>
                                         (verdict_of det)]> (heap w2))
                       (db_fs w2) (trace w2)))); auto.
Qed.
